(** * avslice: the timestamp pipeline of [slice.py]

    A shallow embedding of the functions of [slice.py] that turn the rows of
    the timestamp table into the ffmpeg filter predicate and into the rows of
    the key file, and the properties of the specification that concern them.

    Modelling conventions.
    - A Python number is an [int] or a [float] ([pynum]).  In the first
      embedding a float is held as the exact rational it denotes, in lowest
      terms, and float arithmetic is exact; it carries the properties that
      rest on order, structure and strings.
    - The module [Binary64] embeds the functions that compute with floats a
      second time, with a float as an IEEE 754 binary64 number and the
      operations rounding to nearest, ties to even; the properties that
      depend on rounding are stated on it.
    - A Python [str] is a Rocq [string] whose characters are the code points
      below 256, one [ascii] per code point.
    - A raised exception is the [Raise] case of [result]; nothing in
      [slice.py] catches one, so it ends the run.
    - [unidecode] belongs to an external package: its table for the code
      points from 128 up is a parameter, [translit]. *)

From Stdlib Require Import ZArith QArith Qround Qreduction Qabs Lia Lqa List Bool Ascii String.
From Stdlib Require Import Permutation Sorted Qminmax SpecFloat.
Import ListNotations.

Local Open Scope string_scope.
Local Open Scope Z_scope.

(** ** Exceptions *)

Inductive exn : Set :=
| TypeError
| ValueError
| IndexError
| OverflowError
| UnboundLocalError.

Inductive result (A : Type) : Type :=
| Ok (a : A)
| Raise (e : exn).

Arguments Ok {A} a.
Arguments Raise {A} e.

Definition bind {A B : Type} (r : result A) (k : A -> result B) : result B :=
  match r with
  | Ok a => k a
  | Raise e => Raise e
  end.

Notation "'let*' x ':=' r 'in' k" := (bind r (fun x => k))
  (at level 10, x pattern, r at level 100, k at level 200).

(** A list comprehension whose element expression may raise: the elements are
    evaluated left to right and the first exception ends the evaluation. *)
Fixpoint map_result {A B : Type} (f : A -> result B) (l : list A) : result (list B) :=
  match l with
  | [] => Ok []
  | a :: l' =>
      let* b := f a in
      let* bs := map_result f l' in
      Ok (b :: bs)
  end.

(** ** Python numbers *)

Inductive pynum : Set :=
| PyInt (n : Z)
| PyFloat (q : Q).

(** The value a number denotes. *)
Definition Qval (x : pynum) : Q :=
  match x with
  | PyInt n => inject_Z n
  | PyFloat q => q
  end.

(** [x + y] and [x - y]: an [int] when both operands are, a float otherwise. *)
Definition py_add (x y : pynum) : pynum :=
  match x, y with
  | PyInt a, PyInt b => PyInt (a + b)
  | _, _ => PyFloat (Qred (Qval x + Qval y))
  end.

Definition py_sub (x y : pynum) : pynum :=
  match x, y with
  | PyInt a, PyInt b => PyInt (a - b)
  | _, _ => PyFloat (Qred (Qval x - Qval y))
  end.

(** [x < y], [x <= y] and [x == y] compare the values. *)
Definition py_lt (x y : pynum) : bool :=
  match Qcompare (Qval x) (Qval y) with Lt => true | _ => false end.

Definition py_le (x y : pynum) : bool := Qle_bool (Qval x) (Qval y).

Definition py_eq (x y : pynum) : bool := Qeq_bool (Qval x) (Qval y).

(** ** [fz]: the fuzz adjustment (slice.py, lines 138-146) *)

Definition fz (ts fuzz : pynum) (func : string) : pynum :=
  let ts1 :=
    if String.eqb func "+" then py_add ts fuzz
    else if String.eqb func "-" then py_sub ts fuzz
    else ts in
  if py_le ts1 (PyInt 0) then PyInt 0 else ts1.

(** The default of the third parameter of [fz]. *)
Definition fz_default : string := "+".

(** ** Python strings *)

(** [s.replace(a, b)] for one-character [a] and [b]. *)
Fixpoint str_replace (a b : ascii) (s : string) : string :=
  match s with
  | EmptyString => EmptyString
  | String c s' => String (if Ascii.eqb c a then b else c) (str_replace a b s')
  end.

(** [s[:n]] for [0 <= n]. *)
Fixpoint str_take (n : nat) (s : string) : string :=
  match n, s with
  | O, _ => EmptyString
  | _, EmptyString => EmptyString
  | S n', String c s' => String c (str_take n' s')
  end.

(** [s[:-k]]: all but the last [k] characters, empty when there are at most
    [k] of them. *)
Definition str_drop_last (k : nat) (s : string) : string :=
  str_take (String.length s - k) s.

Fixpoint str_repeat (c : ascii) (n : nat) : string :=
  match n with
  | O => EmptyString
  | S n' => String c (str_repeat c n')
  end.

(** [s.rjust(w, c)]. *)
Definition rjust (w : nat) (c : ascii) (s : string) : string :=
  str_repeat c (w - String.length s) ++ s.

(** [sep.join(l)]. *)
Fixpoint str_join (sep : string) (l : list string) : string :=
  match l with
  | [] => ""
  | [x] => x
  | x :: l' => x ++ sep ++ str_join sep l'
  end.

(** The decimal digit of [d mod 10]. *)
Definition digit_char (d : Z) : ascii :=
  match d mod 10 with
  | 0 => "0" | 1 => "1" | 2 => "2" | 3 => "3" | 4 => "4"
  | 5 => "5" | 6 => "6" | 7 => "7" | 8 => "8" | _ => "9"
  end%char.

(** The decimal numeral of [n >= 0], most significant digit first.  [fuel]
    bounds the number of digits. *)
Fixpoint dec_fuel (fuel : nat) (n : Z) : string :=
  match fuel with
  | O => ""
  | S f =>
      (if n / 10 =? 0 then "" else dec_fuel f (n / 10))
        ++ String (digit_char n) ""
  end.

Definition dec (n : Z) : string := dec_fuel (S (Z.to_nat (Z.log2 n))) n.

(** ["%d" % n]. *)
Definition fmt_d (n : Z) : string :=
  if n <? 0 then "-" ++ dec (- n) else dec n.

(** ["%0wd" % n]: the sign first, then zeros up to the width [w]. *)
Definition fmt_0d (w : nat) (n : Z) : string :=
  if n <? 0 then "-" ++ rjust (w - 1) "0" (dec (- n)) else rjust w "0" (dec n).

(** The [k] lowest decimal digits of [n], most significant first. *)
Fixpoint digits (k : nat) (n : Z) : string :=
  match k with
  | O => ""
  | S k' => digits k' (n / 10) ++ String (digit_char n) ""
  end.

(** ** [datetime.timedelta] *)

(** A normalised [timedelta]: [0 <= td_seconds < 86400] and
    [0 <= td_microseconds < 1000000]; only the days carry the sign. *)
Record timedelta : Set := mk_timedelta {
  td_days : Z;
  td_seconds : Z;
  td_microseconds : Z
}.

(** Rounding to the nearest integer, a tie going to the even one. *)
Definition round_half_even (q : Q) : Z :=
  let f := Qfloor q in
  match Qcompare (q - inject_Z f) (1 # 2) with
  | Lt => f
  | Gt => f + 1
  | Eq => if Z.even f then f else f + 1
  end.

(** The number of microseconds that [timedelta(seconds=x)] holds. *)
Definition timedelta_us (x : pynum) : Z :=
  match x with
  | PyInt n => n * 1000000
  | PyFloat q => round_half_even (q * inject_Z 1000000)
  end.

Definition us_per_day : Z := 86400000000.

(** [datetime.timedelta(seconds=x)]. *)
Definition timedelta_of_seconds (x : pynum) : result timedelta :=
  let us := timedelta_us x in
  let d := us / us_per_day in
  if 999999999 <? Z.abs d then Raise OverflowError
  else Ok (mk_timedelta d (us mod us_per_day / 1000000) (us mod 1000000)).

(** [str(t)], as [timedelta.__str__] builds it. *)
Definition timedelta_str (t : timedelta) : string :=
  let mm0 := td_seconds t / 60 in
  let ss := td_seconds t mod 60 in
  let hh := mm0 / 60 in
  let mm := mm0 mod 60 in
  let s := fmt_d hh ++ ":" ++ fmt_0d 2 mm ++ ":" ++ fmt_0d 2 ss in
  let s :=
    if td_days t =? 0 then s
    else fmt_d (td_days t) ++ " day"
           ++ (if Z.abs (td_days t) =? 1 then "" else "s") ++ ", " ++ s in
  if td_microseconds t =? 0 then s
  else s ++ "." ++ fmt_0d 6 (td_microseconds t).

(** ** [datetime.datetime.strptime] *)

(** One item of a format string: a directive [%c] or a literal character. *)
Inductive fmt_item : Set :=
| Dir (c : ascii)
| Lit (c : ascii).

Fixpoint compile_format (fmt : string) : list fmt_item :=
  match fmt with
  | EmptyString => []
  | String "%" (String c rest) => Dir c :: compile_format rest
  | String c rest => Lit c :: compile_format rest
  end.

(** A character class [[lo-hi]]. *)
Definition in_range (lo hi c : ascii) : bool :=
  (nat_of_ascii lo <=? nat_of_ascii c)%nat && (nat_of_ascii c <=? nat_of_ascii hi)%nat.

Definition cls (lo hi : ascii) : ascii * ascii := (lo, hi).
Definition any_digit : ascii * ascii := cls "0" "9".

(** The regular expression of a directive, as the alternatives the matcher
    tries in order, each a sequence of character classes:
    [%H] is [2[0-3]|[0-1]\d|\d], [%M] is [[0-5]\d|\d],
    [%S] is [6[0-1]|[0-5]\d|\d] and [%f] is the greedy [[0-9]{1,6}]. *)
Definition directive_regex (c : ascii) : list (list (ascii * ascii)) :=
  if Ascii.eqb c "H" then
    [[cls "2" "2"; cls "0" "3"]; [cls "0" "1"; any_digit]; [any_digit]]
  else if Ascii.eqb c "M" then
    [[cls "0" "5"; any_digit]; [any_digit]]
  else if Ascii.eqb c "S" then
    [[cls "6" "6"; cls "0" "1"]; [cls "0" "5"; any_digit]; [any_digit]]
  else if Ascii.eqb c "f" then
    [repeat any_digit 6; repeat any_digit 5; repeat any_digit 4;
     repeat any_digit 3; repeat any_digit 2; repeat any_digit 1]
  else [].

(** Matching a sequence of classes at the head of [s]: the text matched and
    the rest. *)
Fixpoint match_classes (cs : list (ascii * ascii)) (s : string) : option (string * string) :=
  match cs with
  | [] => Some ("", s)
  | (lo, hi) :: cs' =>
      match s with
      | EmptyString => None
      | String c s' =>
          if in_range lo hi c then
            match match_classes cs' s' with
            | Some (m, r) => Some (String c m, r)
            | None => None
            end
          else None
      end
  end.

(** [int(s)] for a string of decimal digits. *)
Fixpoint int_of_digits_acc (acc : Z) (s : string) : Z :=
  match s with
  | EmptyString => acc
  | String c s' => int_of_digits_acc (acc * 10 + (Z.of_nat (nat_of_ascii c) - 48)) s'
  end.

Definition int_of_digits (s : string) : Z := int_of_digits_acc 0 s.

(** The fields of the [datetime] that [strptime] builds; the date is
    1900-01-01 whenever the format has no date directive. *)
Record tm : Set := mk_tm {
  tm_hour : Z;
  tm_min : Z;
  tm_sec : Z;
  tm_usec : Z
}.

Definition tm0 : tm := mk_tm 0 0 0 0.

(** What the text found for a directive sets; the text of [%f] is padded
    with zeros on the right to six digits. *)
Definition set_field (c : ascii) (text : string) (t : tm) : tm :=
  if Ascii.eqb c "H" then mk_tm (int_of_digits text) (tm_min t) (tm_sec t) (tm_usec t)
  else if Ascii.eqb c "M" then mk_tm (tm_hour t) (int_of_digits text) (tm_sec t) (tm_usec t)
  else if Ascii.eqb c "S" then mk_tm (tm_hour t) (tm_min t) (int_of_digits text) (tm_usec t)
  else if Ascii.eqb c "f" then
    mk_tm (tm_hour t) (tm_min t) (tm_sec t)
          (int_of_digits (text ++ str_repeat "0" (6 - String.length text)))
  else t.

(** The first of the alternatives [l] on which [f] succeeds. *)
Fixpoint first_some {A B : Type} (f : A -> option B) (l : list A) : option B :=
  match l with
  | [] => None
  | a :: l' =>
      match f a with
      | Some b => Some b
      | None => first_some f l'
      end
  end.

(** The backtracking match of the compiled format at the head of [s]: the
    fields found and the unconverted rest, for the first way to match that
    the alternatives give in order. *)
Fixpoint match_items (items : list fmt_item) (t : tm) (s : string) : option (tm * string) :=
  match items with
  | [] => Some (t, s)
  | Lit c :: items' =>
      match s with
      | String c' s' => if Ascii.eqb c' c then match_items items' t s' else None
      | EmptyString => None
      end
  | Dir c :: items' =>
      first_some
        (fun cs =>
           match match_classes cs s with
           | Some (text, rest) => match_items items' (set_field c text t) rest
           | None => None
           end)
        (directive_regex c)
  end.

(** [datetime.datetime.strptime(data, format)].  A format that is [None]
    is a [TypeError]; data that does not match, data left over after the
    match, and a seconds field of 60 or 61 (which the expression of [%S]
    lets through and the [datetime] constructor refuses) are [ValueError]s. *)
Definition strptime (data : string) (format : option string) : result tm :=
  match format with
  | None => Raise TypeError
  | Some fmt =>
      match match_items (compile_format fmt) tm0 data with
      | None => Raise ValueError
      | Some (t, EmptyString) =>
          if 59 <? tm_sec t then Raise ValueError else Ok t
      | Some (_, String _ _) => Raise ValueError
      end
  end.

(** [float((t - datetime.datetime(1900, 1, 1)).total_seconds())]. *)
Definition total_seconds (t : tm) : pynum :=
  PyFloat (Qred (((tm_hour t * 60 + tm_min t) * 60 + tm_sec t) * 1000000 + tm_usec t
                 # 1000000)).

(** ** [parse_secs] (slice.py, lines 124-135) *)

(** The dictionary [time_formats]; [None] is what [.get] gives for a
    missing key. *)
Definition time_formats (len : nat) : option string :=
  match len with
  | 4%nat => Some "%M:%S"
  | 5%nat => Some "%M:%S"
  | 8%nat => Some "%H:%M:%S"
  | 9%nat => Some "%M:%S.%f"
  | 12%nat => Some "%H:%M:%S.%f"
  | _ => None
  end.

Definition parse_secs (ts : string) : result pynum :=
  let* time_struct := strptime ts (time_formats (String.length ts)) in
  Ok (total_seconds time_struct).

(** ** [conv_time] (slice.py, lines 57-78) *)

(** A value [conv_time] takes or returns: a number or a string. *)
Inductive pyval : Set :=
| VNum (x : pynum)
| VStr (s : string).

Definition conv_time (input : pyval) : result pyval :=
  match input with
  | VNum x =>
      if py_eq x (PyInt 0) then Ok (VStr "00:00:00,000")
      else
        let* td := timedelta_of_seconds x in
        let time := timedelta_str td in
        let time := str_replace "." "," time in
        let time :=
          if ((String.length time =? 6) || (String.length time =? 7))%nat
          then time ++ ",000000" else time in
        let time := str_drop_last 3 time in
        let time := rjust 12 "0" time in
        Ok (VStr time)
  | VStr s =>
      if String.eqb s "00:00:00,000" then Ok (VNum (PyFloat 0))
      else
        let* time_struct := strptime s (Some "%H:%M:%S,%f") in
        Ok (VNum (total_seconds time_struct))
  end.

(** ** Formatting a number in an f-string *)

(** The digits of the fraction [r], [0 <= r < 1], after the decimal point;
    at least one, and no more than [S fuel]. *)
Fixpoint frac_digits (fuel : nat) (r : Q) : string :=
  let d := Qfloor (r * inject_Z 10) in
  let r' := Qred (r * inject_Z 10 - inject_Z d) in
  String (digit_char d)
    (match fuel with
     | O => ""
     | S f => if Qeq_bool r' 0 then "" else frac_digits f r'
     end).

(** [repr(x)] of a float in positional notation: the integer part, a point
    and the digits of the fraction.  This is what Python prints for a float
    that is the nearest one to a decimal numeral of at most 16 significant
    digits whose magnitude is at least 1e-4 and below 1e16 (every whole
    number of microseconds below that bound); the exponent notation Python
    uses outside that range is not modelled. *)
Definition float_repr (q : Q) : string :=
  let a := Qabs q in
  let ip := Qfloor a in
  (match Qcompare q 0 with Lt => "-" | _ => "" end)
    ++ fmt_d ip ++ "." ++ frac_digits 16 (Qred (a - inject_Z ip)).

(** [f'{x}']. *)
Definition py_str (x : pynum) : string :=
  match x with
  | PyInt n => fmt_d n
  | PyFloat q => float_repr q
  end.

(** ** The rows of the table and the segments *)

(** A row of the timestamp table: start, end, label. *)
Definition row : Set := string * string * string.

(** A fuzzed segment in seconds: start, end, label. *)
Definition seg : Set := pynum * pynum * string.

Definition seg_start (s : seg) : pynum := fst (fst s).
Definition seg_end (s : seg) : pynum := snd (fst s).
Definition seg_label (s : seg) : string := snd s.

(** ** [parse_data_ffmpeg] (slice.py, lines 29-32) *)

Definition parse_data_ffmpeg (tsdata : list row) (fuzz : pynum)
  : result (list (pynum * pynum)) :=
  map_result
    (fun '(x, y, z) =>
       let* px := parse_secs x in
       let* py := parse_secs y in
       Ok (fz px fuzz "-", fz py fuzz fz_default))
    tsdata.

(** ** The stages of [parse_data_key] (slice.py, lines 35-54) *)

(** Line 36: the fuzzed segments. *)
Definition tsconv_keys (tsdata : list row) (fuzz : pynum) : result (list seg) :=
  map_result
    (fun '(x, y, lab) =>
       let* px := parse_secs x in
       let* py := parse_secs y in
       Ok (fz px fuzz "-", fz py fuzz fz_default, lab))
    tsdata.

(** [min(l, key=key)]: the first element whose key is least; a [ValueError]
    on the empty list. *)
Fixpoint min_from {A : Type} (key : A -> pynum) (best : A) (l : list A) : A :=
  match l with
  | [] => best
  | a :: l' => min_from key (if py_lt (key a) (key best) then a else best) l'
  end.

Definition py_min {A : Type} (key : A -> pynum) (l : list A) : result A :=
  match l with
  | [] => Raise ValueError
  | a :: l' => Ok (min_from key a l')
  end.

(** [sorted(l, key=key)]: Python's sort is stable and compares keys with
    [<] only.  The result of a stable sort is determined by the keys, so a
    stable insertion sort stands for it: an element goes in front of the
    first element of the sorted rest whose key is not smaller. *)
Fixpoint insert_by {A : Type} (key : A -> pynum) (a : A) (l : list A) : list A :=
  match l with
  | [] => [a]
  | b :: l' => if py_lt (key b) (key a) then b :: insert_by key a l' else a :: b :: l'
  end.

Fixpoint sorted_by {A : Type} (key : A -> pynum) (l : list A) : list A :=
  match l with
  | [] => []
  | a :: l' => insert_by key a (sorted_by key l')
  end.

(** A shifted segment: re-based start, re-based end, duration, label. *)
Definition shifted : Set := pynum * pynum * pynum * string.

Definition shifted_start (s : shifted) : pynum := fst (fst (fst s)).

(** Line 40. *)
Definition shift_by (tsmin : pynum) (s : seg) : shifted :=
  let '(x, y, lab) := s in (py_sub x tsmin, py_sub y tsmin, py_sub y x, lab).

(** Lines 44-52: the loop that closes the gaps.  [i] is the index that
    [enumerate] gives and [ts_keys] the list built so far; [ts_keys[i - 1]]
    is a list lookup, an [IndexError] when out of range. *)
Definition prev_ts2 (i : nat) (ts_keys : list seg) : result pynum :=
  match i with
  | O => Ok (PyInt 0)
  | S i' =>
      match nth_error ts_keys i' with
      | Some k => Ok (seg_end k)
      | None => Raise IndexError
      end
  end.

Fixpoint close_gaps (i : nat) (tsshift : list shifted) (ts_keys : list seg)
  : result (list seg) :=
  match tsshift with
  | [] => Ok ts_keys
  | (ts1, ts2, dur, lab) :: rest =>
      let* prev := prev_ts2 i ts_keys in
      let ts1_shift := prev in
      let ts2_shift := py_add prev dur in
      close_gaps (S i) rest (ts_keys ++ [(ts1_shift, ts2_shift, lab)])%list
  end.

(** Lines 38-52: from the fuzzed segments to the output timeline
    [ts_keys]. *)
Definition key_timeline (tsconv : list seg) : result (list seg) :=
  let* m := py_min seg_start tsconv in
  let tsmin := seg_start m in
  let tsshift := map (shift_by tsmin) tsconv in
  let tsshift := sorted_by shifted_start tsshift in
  close_gaps 0 tsshift [].



(** ** [output_filename] (slice.py, lines 118-121) *)

(** [s.rfind(c)]: the last index of [c], or -1. *)
Fixpoint str_rfind_from (c : ascii) (i : Z) (s : string) (found : Z) : Z :=
  match s with
  | EmptyString => found
  | String c' s' => str_rfind_from c (i + 1) s' (if Ascii.eqb c' c then i else found)
  end.

Definition str_rfind (c : ascii) (s : string) : Z := str_rfind_from c 0 s (-1).

(** [s[n:]]. *)
Fixpoint str_drop (n : nat) (s : string) : string :=
  match n, s with
  | O, _ => s
  | _, EmptyString => EmptyString
  | S n', String _ s' => str_drop n' s'
  end.

(** Whether [s] has a character other than [c]. *)
Fixpoint has_other (c : ascii) (s : string) : bool :=
  match s with
  | EmptyString => false
  | String c' s' => negb (Ascii.eqb c' c) || has_other c s'
  end.

(** [os.path.splitext(p)] on POSIX: the extension starts at the last dot
    after the last slash, unless only dots come before it in the name. *)
Definition splitext (p : string) : string * string :=
  let sepIndex := str_rfind "/" p in
  let dotIndex := str_rfind "." p in
  if (sepIndex <? dotIndex)
     && has_other "." (str_take (Z.to_nat (dotIndex - (sepIndex + 1)))
                                (str_drop (Z.to_nat (sepIndex + 1)) p))
  then (str_take (Z.to_nat dotIndex) p, str_drop (Z.to_nat dotIndex) p)
  else (p, "").

Definition output_filename (filein : string) : string :=
  let '(basename, ext) := splitext filein in
  basename ++ "_out" ++ ext.

(** ** [ts_to_cmd] (slice.py, lines 90-113) *)

(** Lines 92-93: the predicate, the local [cmd]. *)
Definition between_predicate (ts : list (pynum * pynum)) : string :=
  str_join "+"
    (map (fun '(x, y) => "between(t," ++ py_str x ++ "," ++ py_str y ++ ")") ts).

Definition ts_to_cmd (ts : list (pynum * pynum)) (filein av : string)
  : result (list string) :=
  let fileout := output_filename filein in
  let cmd := between_predicate ts in
  let vcmd := "select='" ++ cmd ++ "',setpts=N/FRAME_RATE/TB" in
  let acmd := "aselect='" ++ cmd ++ "',asetpts=N/SR/TB" in
  if String.eqb av "video" then
    Ok ["ffmpeg"; "-y"; "-i"; filein; "-vf"; vcmd; "-af"; acmd; fileout]
  else if String.eqb av "audio" then
    Ok ["ffmpeg"; "-y"; "-i"; filein; "-af"; acmd; fileout]
  else Raise UnboundLocalError.

(** ** [parse_data_key], [write_key] and [main] *)

(** A row of the key file. *)
Definition key_row : Set := pyval * pyval * string.

(** What a run does to the outside: it writes the key file (its path, the
    header and the rows), then launches ffmpeg. *)
Inductive effect : Set :=
| WriteKey (path : string) (header : list string) (rows : list key_row)
| Popen (cmd : list string).

(** The command line: [args.audio], [args.video], [args.key], [args.fuzz]. *)
Record args : Set := mk_args {
  arg_audio : option string;
  arg_video : option string;
  arg_key : string;
  arg_fuzz : pynum
}.

(** The truth value of an optional string: [None] and [''] are false. *)
Definition truthy (o : option string) : bool :=
  match o with
  | Some (String _ _) => true
  | _ => false
  end.

Section Pipeline.

(** The table of the [unidecode] package for the code points from 128 up. *)
Variable translit : ascii -> string.

(** [unidecode(s)]: an ASCII character stays, any other is replaced by its
    entry in the table. *)
Fixpoint unidecode (s : string) : string :=
  match s with
  | EmptyString => EmptyString
  | String c s' =>
      (if (nat_of_ascii c <? 128)%nat then String c "" else translit c)
        ++ unidecode s'
  end.

Definition parse_data_key (tsdata : list row) (fuzz : pynum) : result (list key_row) :=
  let* tsconv := tsconv_keys tsdata fuzz in
  let* ts_keys := key_timeline tsconv in
  map_result
    (fun '(x, y, lab) =>
       let* cx := conv_time (VNum x) in
       let* cy := conv_time (VNum y) in
       Ok (cx, cy, unidecode lab))
    ts_keys.

(** [write_key(key, filein)]: the one effect is the file written. *)
Definition write_key (key : list key_row) (filein : string) : effect :=
  WriteKey (output_filename filein) ["ts1"; "ts2"; "clip_description"] key.

(** [main], given what [import_data(args.key)] read: the effects of the
    run, in order, and how it ends.  Every step that can raise comes
    before the first effect. *)
Definition main (a : args) (ts_raw : list row) : list effect * result unit :=
  let prepared :=
    let* type_input :=
      if truthy (arg_audio a) then Ok ("audio", arg_audio a)
      else if truthy (arg_video a) then Ok ("video", arg_video a)
      else Raise UnboundLocalError in
    let '(type, input) := type_input in
    let* ts_ffmpeg := parse_data_ffmpeg ts_raw (arg_fuzz a) in
    let* ts_key := parse_data_key ts_raw (arg_fuzz a) in
    let* cmd := ts_to_cmd ts_ffmpeg (match input with Some f => f | None => "" end) type in
    Ok (ts_key, cmd) in
  match prepared with
  | Ok (ts_key, cmd) => ([write_key ts_key (arg_key a); Popen cmd], Ok tt)
  | Raise e => ([], Raise e)
  end.

End Pipeline.

(** * The functions that compute with floats, in binary64 *)

Module Binary64.

(** A Python float: a binary64 number, with the operations of IEEE 754
    rounding to nearest, ties to even. *)
Definition float : Set := spec_float.

(** The precision and the exponent bound of binary64. *)
Definition prec : Z := 53.
Definition emax : Z := 1024.

(** [x + y], [x - y], [x * y] and [x / y] on floats. *)
Definition fadd : float -> float -> float := SFadd prec emax.
Definition fsub : float -> float -> float := SFsub prec emax.
Definition fmul : float -> float -> float := SFmul prec emax.
Definition fdiv : float -> float -> float := SFdiv prec emax.

(** [float(n)] for an int [n]: the nearest float. *)
Definition float_of_Z (n : Z) : float := binary_normalize prec emax n 0 false.

(** The float nearest to [n / d], for [n] and [d] below [2 ^ 53]: what the
    literal or the command-line text of that decimal denotes. *)
Definition decimal (n d : Z) : float := fdiv (float_of_Z n) (float_of_Z d).

(** The integer part of a finite float, towards zero ([modf]). *)
Definition trunc (f : float) : Z :=
  match f with
  | S754_finite s m e =>
      let a := match e with
               | Zneg p => Zpos m / Z.pow_pos 2 p
               | _ => Zpos m * 2 ^ e
               end in
      if s then - a else a
  | _ => 0
  end.

(** The rational a finite float denotes. *)
Definition Q_of_float (f : float) : Q :=
  match f with
  | S754_finite s m e =>
      let a := match e with
               | Zneg p => Zpos m # Pos.pow 2 p
               | _ => inject_Z (Zpos m * 2 ^ e)
               end in
      if s then Qopp a else a
  | _ => 0%Q
  end.

(** A Python number. *)
Inductive pynum : Set :=
| PyInt (n : Z)
| PyFloat (f : float).

(** The float an operand becomes when the other one is a float. *)
Definition to_float (x : pynum) : float :=
  match x with
  | PyInt n => float_of_Z n
  | PyFloat f => f
  end.

(** [x + y] and [x - y]: an [int] when both operands are, a float otherwise. *)
Definition py_add (x y : pynum) : pynum :=
  match x, y with
  | PyInt a, PyInt b => PyInt (a + b)
  | _, _ => PyFloat (fadd (to_float x) (to_float y))
  end.

Definition py_sub (x y : pynum) : pynum :=
  match x, y with
  | PyInt a, PyInt b => PyInt (a - b)
  | _, _ => PyFloat (fsub (to_float x) (to_float y))
  end.

(** [x < y], [x <= y] and [x == y].  An [int] is compared with a float
    through its float, which is the int itself below [2 ** 53]; the ints of
    the pipeline are 0. *)
Definition py_lt (x y : pynum) : bool :=
  match x, y with
  | PyInt a, PyInt b => a <? b
  | _, _ => SFltb (to_float x) (to_float y)
  end.

Definition py_le (x y : pynum) : bool :=
  match x, y with
  | PyInt a, PyInt b => a <=? b
  | _, _ => SFleb (to_float x) (to_float y)
  end.

Definition py_eq (x y : pynum) : bool :=
  match x, y with
  | PyInt a, PyInt b => a =? b
  | _, _ => SFeqb (to_float x) (to_float y)
  end.

(** [fz] (slice.py, lines 138-146). *)
Definition fz (ts fuzz : pynum) (func : string) : pynum :=
  let ts1 :=
    if String.eqb func "+" then py_add ts fuzz
    else if String.eqb func "-" then py_sub ts fuzz
    else ts in
  if py_le ts1 (PyInt 0) then PyInt 0 else ts1.

(** The number of microseconds that [timedelta(seconds=x)] holds.  For a
    float the constructor splits off the integer part ([modf]), multiplies
    the fraction by [10 ** 6] as floats, and rounds the product to an
    integer, a tie going to the even one; NaN is a [ValueError] and an
    infinity an [OverflowError]. *)
Definition timedelta_us (x : pynum) : result Z :=
  match x with
  | PyInt n => Ok (n * 1000000)
  | PyFloat S754_nan => Raise ValueError
  | PyFloat (S754_infinity _) => Raise OverflowError
  | PyFloat f =>
      let intpart := trunc f in
      let fracpart := fsub f (float_of_Z intpart) in
      let dnum := fmul (float_of_Z 1000000) fracpart in
      Ok (intpart * 1000000 + round_half_even (Q_of_float dnum))
  end.

(** [datetime.timedelta(seconds=x)]. *)
Definition timedelta_of_seconds (x : pynum) : result timedelta :=
  let* us := timedelta_us x in
  let d := us / us_per_day in
  if 999999999 <? Z.abs d then Raise OverflowError
  else Ok (mk_timedelta d (us mod us_per_day / 1000000) (us mod 1000000)).

(** [float((t - datetime.datetime(1900, 1, 1)).total_seconds())]: the
    microseconds divided by [10 ** 6], an int division rounded to the
    nearest float. *)
Definition total_seconds (t : tm) : pynum :=
  PyFloat (fdiv (float_of_Z (((tm_hour t * 60 + tm_min t) * 60 + tm_sec t) * 1000000
                             + tm_usec t))
                (float_of_Z 1000000)).

(** [parse_secs] (slice.py, lines 124-135). *)
Definition parse_secs (ts : string) : result pynum :=
  let* time_struct := strptime ts (time_formats (String.length ts)) in
  Ok (total_seconds time_struct).

(** A value [conv_time] takes or returns. *)
Inductive pyval : Set :=
| VNum (x : pynum)
| VStr (s : string).

(** [conv_time] (slice.py, lines 57-78). *)
Definition conv_time (input : pyval) : result pyval :=
  match input with
  | VNum x =>
      if py_eq x (PyInt 0) then Ok (VStr "00:00:00,000")
      else
        let* td := timedelta_of_seconds x in
        let time := timedelta_str td in
        let time := str_replace "." "," time in
        let time :=
          if ((String.length time =? 6) || (String.length time =? 7))%nat
          then time ++ ",000000" else time in
        let time := str_drop_last 3 time in
        let time := rjust 12 "0" time in
        Ok (VStr time)
  | VStr s =>
      if String.eqb s "00:00:00,000" then Ok (VNum (PyFloat (float_of_Z 0)))
      else
        let* time_struct := strptime s (Some "%H:%M:%S,%f") in
        Ok (VNum (total_seconds time_struct))
  end.

(** A fuzzed segment in seconds: start, end, label. *)
Definition seg : Set := pynum * pynum * string.
Definition seg_start (s : seg) : pynum := fst (fst s).
Definition seg_end (s : seg) : pynum := snd (fst s).
Definition seg_label (s : seg) : string := snd s.

(** Line 36: the fuzzed segments. *)
Definition tsconv_keys (tsdata : list row) (fuzz : pynum) : result (list seg) :=
  map_result
    (fun '(x, y, lab) =>
       let* px := parse_secs x in
       let* py := parse_secs y in
       Ok (fz px fuzz "-", fz py fuzz fz_default, lab))
    tsdata.

(** [min(l, key=key)], as in the first embedding. *)
Fixpoint min_from {A : Type} (key : A -> pynum) (best : A) (l : list A) : A :=
  match l with
  | [] => best
  | a :: l' => min_from key (if py_lt (key a) (key best) then a else best) l'
  end.

Definition py_min {A : Type} (key : A -> pynum) (l : list A) : result A :=
  match l with
  | [] => Raise ValueError
  | a :: l' => Ok (min_from key a l')
  end.

(** [sorted(l, key=key)], as in the first embedding. *)
Fixpoint insert_by {A : Type} (key : A -> pynum) (a : A) (l : list A) : list A :=
  match l with
  | [] => [a]
  | b :: l' => if py_lt (key b) (key a) then b :: insert_by key a l' else a :: b :: l'
  end.

Fixpoint sorted_by {A : Type} (key : A -> pynum) (l : list A) : list A :=
  match l with
  | [] => []
  | a :: l' => insert_by key a (sorted_by key l')
  end.

(** A shifted segment: re-based start, re-based end, duration, label. *)
Definition shifted : Set := pynum * pynum * pynum * string.
Definition shifted_start (s : shifted) : pynum := fst (fst (fst s)).
Definition shifted_dur (s : shifted) : pynum := snd (fst s).
Definition shifted_label (s : shifted) : string := snd s.

(** Line 40. *)
Definition shift_by (tsmin : pynum) (s : seg) : shifted :=
  let '(x, y, lab) := s in (py_sub x tsmin, py_sub y tsmin, py_sub y x, lab).

(** Lines 44-52: the loop that closes the gaps. *)
Definition prev_ts2 (i : nat) (ts_keys : list seg) : result pynum :=
  match i with
  | O => Ok (PyInt 0)
  | S i' =>
      match nth_error ts_keys i' with
      | Some k => Ok (seg_end k)
      | None => Raise IndexError
      end
  end.

Fixpoint close_gaps (i : nat) (tsshift : list shifted) (ts_keys : list seg)
  : result (list seg) :=
  match tsshift with
  | [] => Ok ts_keys
  | (ts1, ts2, dur, lab) :: rest =>
      let* prev := prev_ts2 i ts_keys in
      let ts1_shift := prev in
      let ts2_shift := py_add prev dur in
      close_gaps (S i) rest (ts_keys ++ [(ts1_shift, ts2_shift, lab)])%list
  end.

(** Lines 38-52: from the fuzzed segments to the output timeline. *)
Definition key_timeline (tsconv : list seg) : result (list seg) :=
  let* m := py_min seg_start tsconv in
  let tsmin := seg_start m in
  let tsshift := map (shift_by tsmin) tsconv in
  let tsshift := sorted_by shifted_start tsshift in
  close_gaps 0 tsshift [].

(** A row of the key file. *)
Definition key_row : Set := pyval * pyval * string.

(** [parse_data_key] (slice.py, lines 35-54). *)
Definition parse_data_key (translit : ascii -> string) (tsdata : list row)
           (fuzz : pynum) : result (list key_row) :=
  let* tsconv := tsconv_keys tsdata fuzz in
  let* ts_keys := key_timeline tsconv in
  map_result
    (fun '(x, y, lab) =>
       let* cx := conv_time (VNum x) in
       let* cy := conv_time (VNum y) in
       Ok (cx, cy, unidecode translit lab))
    ts_keys.

End Binary64.

(** * Definitions for the statements *)



(** What the loop of [parse_data_key] appends when it starts with the
    cursor at [cursor]. *)
Fixpoint walk (cursor : pynum) (l : list shifted) : list seg :=
  match l with
  | [] => []
  | (_, _, dur, lab) :: rest =>
      (cursor, py_add cursor dur, lab) :: walk (py_add cursor dur) rest
  end.

(** A timeline without gaps or overlaps from [cursor] on: every segment
    starts where the one before it ends, the first one at [cursor]. *)
Fixpoint gapless (cursor : pynum) (outs : list seg) : Prop :=
  match outs with
  | [] => True
  | o :: rest => seg_start o = cursor /\ gapless (seg_end o) rest
  end.

(** The numeral without the test for a single digit: empty for 0. *)
Definition dec_opt (f : nat) (n : Z) : string :=
  if n =? 0 then "" else dec_fuel f n.

(** The subtitle time [HH:MM:SS,mmm] of a number of microseconds: two
    digits each for hours, minutes and seconds, a comma, and the
    milliseconds, the microseconds cut to three digits. *)
Definition subtitle_of_us (us : Z) : string :=
  let sec := us / 1000000 in
  digits 2 (sec / 3600) ++ ":" ++ digits 2 (sec / 60 mod 60) ++ ":"
    ++ digits 2 (sec mod 60) ++ "," ++ digits 3 (us mod 1000000 / 1000).

(** The float that holds [us] microseconds as seconds. *)
Definition seconds_of_us (us : Z) : pynum := PyFloat (Qred (us # 1000000)).

Fixpoint all_digits (s : string) : bool :=
  match s with
  | EmptyString => true
  | String c s' => in_range "0" "9" c && all_digits s'
  end.

(** The shape [H..HH:MM:SS,mmm]: at least two digits of hours, then
    [:dd:dd,ddd]. *)
Definition is_subtitle (s : string) : bool :=
  let n := (String.length s - 10)%nat in
  (2 <=? n)%nat && all_digits (str_take n s)
  && match str_drop n s with
     | String c1 (String m1 (String m2 (String c2 (String s1 (String s2
         (String c3 (String f1 (String f2 (String f3 EmptyString))))))))) =>
         Ascii.eqb c1 ":" && Ascii.eqb c2 ":" && Ascii.eqb c3 ","
         && all_digits (String m1 (String m2 (String s1 (String s2
              (String f1 (String f2 (String f3 EmptyString)))))))
     | _ => false
     end.

(** A table with the accented letters that the examples use; any other
    character is dropped. *)
Definition translit_letters (c : ascii) : string :=
  if Ascii.eqb c "233" then "e"
  else if Ascii.eqb c "232" then "e"
  else if Ascii.eqb c "224" then "a"
  else "".

(** The rows of the end-to-end example of the specification; the label of
    the second row ends in U+00E9. *)
Definition example_rows : list row :=
  [("00:00:10", "00:00:12", "intro");
   ("00:00:20", "00:00:21", String "c" (String "a" (String "f" (String "233" ""))))].

(** A row that ends one second before midnight; with a fuzz of one second
    its segment lasts 24 hours. *)
Definition day_rows : list row := [("00:00:00", "23:59:59", "x")].

(** The interval of a segment. *)
Definition seg_bounds (s : seg) : pynum * pynum := (seg_start s, seg_end s).

(** Key rows that chain from [first]: the first time of every row is the
    second time of the row before it, the first row starting at [first]. *)
Fixpoint rows_chain (first : pyval) (rows : list key_row) : Prop :=
  match rows with
  | [] => True
  | r :: rest => fst (fst r) = first /\ rows_chain (snd (fst r)) rest
  end.


(** The fields of a time of day, the seconds as the expression of [%S]
    allows them. *)
Definition tm_ok (t : tm) : Prop :=
  0 <= tm_hour t <= 23 /\ 0 <= tm_min t <= 59 /\ 0 <= tm_sec t <= 61
  /\ 0 <= tm_usec t <= 999999.

(** Whether the character [c] occurs in [s]. *)
Fixpoint has_char (c : ascii) (s : string) : bool :=
  match s with
  | EmptyString => false
  | String c' s' => Ascii.eqb c' c || has_char c s'
  end.

(** What the loop of [Binary64.close_gaps] appends when it starts with the
    cursor at [cursor]. *)
Fixpoint b64_walk (cursor : Binary64.pynum) (l : list Binary64.shifted)
  : list Binary64.seg :=
  match l with
  | [] => []
  | (_, _, dur, lab) :: rest =>
      (cursor, Binary64.py_add cursor dur, lab)
        :: b64_walk (Binary64.py_add cursor dur) rest
  end.

(** The fuzzed duration of a segment, as line 40 computes it. *)
Definition b64_duration (g : Binary64.seg) : Binary64.pynum :=
  Binary64.py_sub (Binary64.seg_end g) (Binary64.seg_start g).

(** An output segment against its source segment: the end is the float sum
    of the start and the duration, and the label is kept. *)
Definition b64_end_is_start_plus_duration (o g : Binary64.seg) : Prop :=
  Binary64.seg_end o = Binary64.py_add (Binary64.seg_start o) (b64_duration g)
  /\ Binary64.seg_label o = Binary64.seg_label g.





(** The rows 0.1 to 1.0 and 0.3 to 2.2, and their segments with no fuzz. *)
Definition tenth_rows : list row :=
  [("00:00.100", "00:01.000", "a"); ("00:00.300", "00:02.200", "b")].

Definition tenth_segs : list Binary64.seg :=
  [(Binary64.PyFloat (Binary64.decimal 1 10),
    Binary64.PyFloat (Binary64.decimal 10 10), "a");
   (Binary64.PyFloat (Binary64.decimal 3 10),
    Binary64.PyFloat (Binary64.decimal 22 10), "b")].

Ltac zdiv := Z.to_euclidean_division_equations; lia.

Ltac enum_nat i Hi :=
  first [ exfalso; lia | destruct i as [|i]; [clear Hi | enum_nat i Hi] ].

(** * Properties *)

(** ** The numbers *)

Lemma Qval_py_add (x y : pynum) : Qval (py_add x y) == Qval x + Qval y.
Proof.
  destruct x, y; cbn [py_add Qval]; try apply Qred_correct.
  rewrite inject_Z_plus; reflexivity.
Qed.

Lemma Qval_py_sub (x y : pynum) : Qval (py_sub x y) == Qval x - Qval y.
Proof.
  destruct x, y; cbn [py_sub Qval]; try apply Qred_correct.
  unfold Z.sub. rewrite inject_Z_plus, inject_Z_opp; reflexivity.
Qed.

Lemma py_le_true (x y : pynum) : py_le x y = true <-> (Qval x <= Qval y)%Q.
Proof. apply Qle_bool_iff. Qed.

Lemma py_le_false (x y : pynum) : py_le x y = false <-> (Qval y < Qval x)%Q.
Proof.
  unfold py_le. rewrite <- not_true_iff_false, Qle_bool_iff.
  split; [apply Qnot_le_lt | apply Qlt_not_le].
Qed.

Lemma py_lt_true (x y : pynum) : py_lt x y = true <-> (Qval x < Qval y)%Q.
Proof.
  unfold py_lt. rewrite Qlt_alt.
  destruct (Qval x ?= Qval y)%Q; split; congruence.
Qed.

Lemma py_lt_false (x y : pynum) : py_lt x y = false <-> (Qval y <= Qval x)%Q.
Proof.
  rewrite <- not_true_iff_false, py_lt_true.
  split; [apply Qnot_lt_le | apply Qle_not_lt].
Qed.

(** Subtracting the same number from both sides does not change [<]. *)
Lemma py_lt_sub (x y m : pynum) : py_lt (py_sub x m) (py_sub y m) = py_lt x y.
Proof.
  destruct (py_lt x y) eqn:E.
  - apply py_lt_true in E. apply py_lt_true.
    rewrite !Qval_py_sub. lra.
  - apply py_lt_false in E. apply py_lt_false.
    rewrite !Qval_py_sub. lra.
Qed.

(** ** The sort *)

Section SortedBy.

Context {A : Type} (key : A -> pynum).

Lemma insert_by_perm (a : A) (l : list A) : Permutation (insert_by key a l) (a :: l).
Proof.
  induction l as [|b l IH]; simpl.
  - apply Permutation_refl.
  - destruct (py_lt (key b) (key a)).
    + eapply perm_trans; [apply perm_skip, IH | apply perm_swap].
    + apply Permutation_refl.
Qed.

Lemma sorted_by_perm (l : list A) : Permutation (sorted_by key l) l.
Proof.
  induction l as [|a l IH]; simpl.
  - apply perm_nil.
  - eapply perm_trans; [apply insert_by_perm | apply perm_skip, IH].
Qed.

Lemma sorted_by_length (l : list A) : List.length (sorted_by key l) = List.length l.
Proof. apply Permutation_length, sorted_by_perm. Qed.





End SortedBy.

(** Sorting commutes with a map that keeps the order of the keys. *)
Lemma sorted_by_map {A B : Type} (key1 : A -> pynum) (key2 : B -> pynum) (f : A -> B) :
  (forall a b, py_lt (key2 (f a)) (key2 (f b)) = py_lt (key1 a) (key1 b)) ->
  forall l, sorted_by key2 (map f l) = map f (sorted_by key1 l).
Proof.
  intros Hf.
  assert (Hins : forall a l, insert_by key2 (f a) (map f l) = map f (insert_by key1 a l)).
  { intros a l. induction l as [|b l IH]; [reflexivity|].
    simpl. rewrite Hf. destruct (py_lt (key1 b) (key1 a)); simpl; congruence. }
  induction l as [|a l IH]; [reflexivity|].
  simpl. rewrite IH. apply Hins.
Qed.

(** ** The loop that closes the gaps *)

Lemma prev_ts2_snoc (ks : list seg) (k : seg) :
  prev_ts2 (List.length (ks ++ [k])%list) (ks ++ [k])%list = Ok (seg_end k).
Proof.
  rewrite length_app. simpl length. rewrite Nat.add_1_r. simpl.
  rewrite nth_error_app2 by lia. rewrite Nat.sub_diag. reflexivity.
Qed.

(** The loop never raises: the lookup [ts_keys[i - 1]] is in range, and
    the list built is the walk from the end of the last entry. *)
Lemma close_gaps_walk (l : list shifted) :
  forall (ks : list seg) (c : pynum),
    prev_ts2 (List.length ks) ks = Ok c ->
    close_gaps (List.length ks) l ks = Ok (ks ++ walk c l)%list.
Proof.
  induction l as [|[[[ts1 ts2] dur] lab] l IH]; intros ks c Hc; simpl.
  - rewrite app_nil_r. reflexivity.
  - rewrite Hc. simpl.
    replace (S (List.length ks)) with (List.length (ks ++ [(c, py_add c dur, lab)])%list)
      by (rewrite length_app; simpl; lia).
    rewrite (IH _ (py_add c dur)) by apply prev_ts2_snoc.
    rewrite <- app_assoc. reflexivity.
Qed.

Lemma close_gaps_0 (l : list shifted) : close_gaps 0 l [] = Ok (walk (PyInt 0) l).
Proof. apply (close_gaps_walk l [] (PyInt 0)). reflexivity. Qed.

Lemma shifted_start_shift_by (m : pynum) (a b : seg) :
  py_lt (shifted_start (shift_by m a)) (shifted_start (shift_by m b))
  = py_lt (seg_start a) (seg_start b).
Proof. destruct a as [[x y] la], b as [[x' y'] lb]. apply py_lt_sub. Qed.


(** The timeline of a non-empty list, in closed form. *)
Lemma key_timeline_cons (s : seg) (l : list seg) :
  key_timeline (s :: l)
  = Ok (walk (PyInt 0)
          (map (shift_by (seg_start (min_from seg_start s l)))
               (sorted_by seg_start (s :: l)))).
Proof.
  unfold key_timeline. cbn [py_min bind].
  rewrite (sorted_by_map seg_start shifted_start)
    by (intros; apply shifted_start_shift_by).
  apply close_gaps_0.
Qed.



Lemma walk_length (l : list shifted) : forall c, List.length (walk c l) = List.length l.
Proof.
  induction l as [|[[[ts1 ts2] dur] lab] l IH]; intros c; simpl; [reflexivity|].
  rewrite IH. reflexivity.
Qed.

Lemma walk_gapless (l : list shifted) : forall c, gapless c (walk c l).
Proof.
  induction l as [|[[[ts1 ts2] dur] lab] l IH]; intros c; simpl; [exact I|].
  split; [reflexivity | apply IH].
Qed.

Lemma gapless_adjacent (outs : list seg) :
  forall c i o1 o2,
    gapless c outs ->
    nth_error outs i = Some o1 ->
    nth_error outs (S i) = Some o2 ->
    seg_start o2 = seg_end o1.
Proof.
  induction outs as [|o outs IH]; intros c i o1 o2 Hg H1 H2.
  - destruct i; discriminate.
  - destruct Hg as [_ Hg]. destruct i as [|i].
    + simpl in H1. injection H1 as <-.
      destruct outs as [|o' outs]; [discriminate|].
      simpl in H2. injection H2 as <-. apply Hg.
    + simpl in H1. apply (IH _ i o1 o2 Hg H1 H2).
Qed.

(** ** Strings and numerals *)

Lemma str_length_app (a b : string) :
  String.length (a ++ b) = (String.length a + String.length b)%nat.
Proof. induction a as [|c a IH]; simpl; [reflexivity | rewrite IH; reflexivity]. Qed.

Lemma str_app_assoc (a b c : string) : (a ++ b) ++ c = a ++ (b ++ c).
Proof. induction a as [|x a IH]; simpl; [reflexivity | rewrite IH; reflexivity]. Qed.

Lemma str_app_nil_r (a : string) : a ++ "" = a.
Proof. induction a as [|x a IH]; simpl; [reflexivity | rewrite IH; reflexivity]. Qed.

Lemma str_repeat_snoc (c : ascii) (n : nat) :
  str_repeat c (S n) = str_repeat c n ++ String c "".
Proof. induction n as [|n IH]; [reflexivity|]. simpl in *. rewrite <- IH. reflexivity. Qed.

Lemma rjust_snoc (k : nat) (z c : ascii) (a : string) :
  rjust (S k) z (a ++ String c "") = rjust k z a ++ String c "".
Proof.
  unfold rjust. rewrite str_length_app. simpl String.length.
  replace (S k - (String.length a + 1))%nat with (k - String.length a)%nat by lia.
  rewrite str_app_assoc. reflexivity.
Qed.

(** The digit characters. *)
Lemma digit_char_cases (d : Z) :
  exists r, 0 <= r < 10 /\ d mod 10 = r /\
    digit_char d = ascii_of_nat (48 + Z.to_nat r).
Proof.
  exists (d mod 10). split; [apply Z.mod_pos_bound; lia|]. split; [reflexivity|].
  unfold digit_char.
  assert (H : 0 <= d mod 10 < 10) by (apply Z.mod_pos_bound; lia).
  set (r := d mod 10) in *.
  assert (E : r = 0 \/ r = 1 \/ r = 2 \/ r = 3 \/ r = 4 \/ r = 5 \/ r = 6 \/ r = 7
              \/ r = 8 \/ r = 9) by lia.
  repeat (destruct E as [-> | E]; [reflexivity|]). subst r. rewrite E. reflexivity.
Qed.

Lemma digit_char_not_dot (d : Z) : Ascii.eqb (digit_char d) "." = false.
Proof.
  destruct (digit_char_cases d) as (r & Hr & _ & ->).
  assert (E : r = 0 \/ r = 1 \/ r = 2 \/ r = 3 \/ r = 4 \/ r = 5 \/ r = 6 \/ r = 7
              \/ r = 8 \/ r = 9) by lia.
  repeat (destruct E as [-> | E]; [reflexivity|]). subst r. reflexivity.
Qed.

Lemma digit_char_in_range (d : Z) : in_range "0" "9" (digit_char d) = true.
Proof.
  destruct (digit_char_cases d) as (r & Hr & _ & ->).
  assert (E : r = 0 \/ r = 1 \/ r = 2 \/ r = 3 \/ r = 4 \/ r = 5 \/ r = 6 \/ r = 7
              \/ r = 8 \/ r = 9) by lia.
  repeat (destruct E as [-> | E]; [reflexivity|]). subst r. reflexivity.
Qed.

Lemma digit_char_value (d : Z) : Z.of_nat (nat_of_ascii (digit_char d)) - 48 = d mod 10.
Proof.
  destruct (digit_char_cases d) as (r & Hr & <- & ->).
  set (r := d mod 10) in *.
  assert (E : r = 0 \/ r = 1 \/ r = 2 \/ r = 3 \/ r = 4 \/ r = 5 \/ r = 6 \/ r = 7
              \/ r = 8 \/ r = 9) by lia.
  repeat (destruct E as [-> | E]; [reflexivity|]). rewrite E. reflexivity.
Qed.

Lemma digits_zero (k : nat) : digits k 0 = str_repeat "0" k.
Proof.
  induction k as [|k IH]; [reflexivity|].
  rewrite str_repeat_snoc. cbn [digits]. change (0 / 10) with 0.
  rewrite IH. reflexivity.
Qed.

Lemma dec_fuel_S (f : nat) (n : Z) :
  dec_fuel (S f) n = dec_opt f (n / 10) ++ String (digit_char n) "".
Proof. reflexivity. Qed.

Lemma rjust_dec_opt (k : nat) :
  forall (f : nat) (n : Z),
    0 <= n < 10 ^ Z.of_nat k -> n < 2 ^ Z.of_nat f ->
    rjust k "0" (dec_opt f n) = digits k n.
Proof.
  induction k as [|k IH]; intros f n Hn Hf.
  - assert (n = 0) by (change (10 ^ Z.of_nat 0) with 1 in Hn; lia). subst n.
    reflexivity.
  - unfold dec_opt. destruct (Z.eqb_spec n 0) as [-> | Hne].
    + rewrite digits_zero. unfold rjust. simpl String.length.
      rewrite Nat.sub_0_r. apply str_app_nil_r.
    + destruct f as [|f]; [change (2 ^ Z.of_nat 0) with 1 in Hf; lia|].
      rewrite dec_fuel_S, rjust_snoc. cbn [digits].
      rewrite IH; [reflexivity | |].
      * rewrite Nat2Z.inj_succ, Z.pow_succ_r in Hn by lia. zdiv.
      * rewrite Nat2Z.inj_succ, Z.pow_succ_r in Hf by lia.
        assert (0 < 2 ^ Z.of_nat f) by (apply Z.pow_pos_nonneg; lia). zdiv.
Qed.

Lemma fmt_0d_digits (k : nat) (n : Z) :
  0 <= n < 10 ^ Z.of_nat (S k) -> fmt_0d (S k) n = digits (S k) n.
Proof.
  intros Hn. unfold fmt_0d.
  destruct (Z.ltb_spec n 0) as [Hneg|_]; [lia|].
  unfold dec. rewrite dec_fuel_S, rjust_snoc. cbn [digits].
  rewrite rjust_dec_opt; [reflexivity | |].
  - rewrite Nat2Z.inj_succ, Z.pow_succ_r in Hn by lia. zdiv.
  - rewrite Z2Nat.id by apply Z.log2_nonneg.
    destruct (Z.eq_dec n 0) as [-> | Hne].
    + reflexivity.
    + pose proof (Z.log2_spec n ltac:(lia)) as [_ Hs].
      rewrite Z.pow_succ_r in Hs by apply Z.log2_nonneg.
      assert (0 < 2 ^ Z.log2 n) by (apply Z.pow_pos_nonneg; [lia | apply Z.log2_nonneg]).
      zdiv.
Qed.

(** ** Formatting and parsing subtitle times *)

Lemma forall_below (P : Z -> Prop) (k : nat) :
  (forall i : nat, (i < k)%nat -> P (Z.of_nat i)) ->
  forall n, 0 <= n < Z.of_nat k -> P n.
Proof.
  intros H n Hn. rewrite <- (Z2Nat.id n) by lia. apply H. lia.
Qed.

Ltac enum_below k :=
  match goal with
  | |- forall n, 0 <= n < _ -> @?P n =>
      apply (forall_below P k);
      let i := fresh "i" in let Hi := fresh "Hi" in
      intros i Hi; enum_nat i Hi
  end.

Lemma fmt_d_hours : forall h, 0 <= h < 24 ->
  fmt_d h = if h <? 10 then digits 1 h else digits 2 h.
Proof. enum_below 24%nat; reflexivity. Qed.

Lemma match_hours : forall h, 0 <= h < 24 ->
  forall items t rest,
    match_items (Dir "H" :: Lit ":" :: items) t (digits 2 h ++ ":" ++ rest)
    = match_items items (mk_tm h (tm_min t) (tm_sec t) (tm_usec t)) rest.
Proof.
  enum_below 24%nat; intros items t rest; cbn [match_items];
    generalize (match_items items); intros k; cbv;
    match goal with |- context [k ?a ?b] => destruct (k a b) end; reflexivity.
Qed.

Lemma match_minutes : forall m, 0 <= m < 60 ->
  forall items t rest,
    match_items (Dir "M" :: Lit ":" :: items) t (digits 2 m ++ ":" ++ rest)
    = match_items items (mk_tm (tm_hour t) m (tm_sec t) (tm_usec t)) rest.
Proof.
  enum_below 60%nat; intros items t rest; cbn [match_items];
    generalize (match_items items); intros k; cbv;
    match goal with |- context [k ?a ?b] => destruct (k a b) end; reflexivity.
Qed.

Lemma match_seconds : forall s, 0 <= s < 60 ->
  forall items t rest,
    match_items (Dir "S" :: Lit "," :: items) t (digits 2 s ++ "," ++ rest)
    = match_items items (mk_tm (tm_hour t) (tm_min t) s (tm_usec t)) rest.
Proof.
  enum_below 60%nat; intros items t rest; cbn [match_items];
    generalize (match_items items); intros k; cbv;
    match goal with |- context [k ?a ?b] => destruct (k a b) end; reflexivity.
Qed.

Lemma match_millis (ms : Z) (t : tm) :
  0 <= ms < 1000 ->
  match_items [Dir "f"] t (digits 3 ms)
  = Some (mk_tm (tm_hour t) (tm_min t) (tm_sec t) (ms * 1000), "").
Proof.
  intros Hms.
  cbn - [in_range digit_char set_field Z.div].
  repeat (rewrite digit_char_in_range; cbn - [in_range digit_char set_field Z.div]).
  unfold set_field.
  cbn - [digit_char Z.div Z.mul Z.add Z.sub Z.of_nat nat_of_ascii int_of_digits].
  unfold int_of_digits. cbn [int_of_digits_acc].
  rewrite !digit_char_value.
  change (Z.of_nat (nat_of_ascii "0") - 48) with 0.
  do 2 f_equal. f_equal. zdiv.
Qed.

(** Parsing a well-formed subtitle time gives back its fields. *)
Lemma strptime_subtitle (h m s ms : Z) :
  0 <= h < 24 -> 0 <= m < 60 -> 0 <= s < 60 -> 0 <= ms < 1000 ->
  strptime (digits 2 h ++ ":" ++ digits 2 m ++ ":" ++ digits 2 s ++ "," ++ digits 3 ms)
           (Some "%H:%M:%S,%f")
  = Ok (mk_tm h m s (ms * 1000)).
Proof.
  intros Hh Hm Hs Hms. unfold strptime.
  change (compile_format "%H:%M:%S,%f")
    with [Dir "H"; Lit ":"; Dir "M"; Lit ":"; Dir "S"; Lit ","; Dir "f"]%char.
  rewrite (match_hours h Hh), (match_minutes m Hm), (match_seconds s Hs),
    (match_millis ms _ Hms).
  cbn [tm_sec tm_hour tm_min tm_usec tm0].
  destruct (Z.ltb_spec 59 s); [lia | reflexivity].
Qed.

Lemma digit_char_zero (d : Z) : digit_char d = "0"%char -> d mod 10 = 0.
Proof.
  destruct (digit_char_cases d) as (r & Hr & <- & ->).
  set (r := d mod 10) in *.
  assert (E : r = 0 \/ r = 1 \/ r = 2 \/ r = 3 \/ r = 4 \/ r = 5 \/ r = 6 \/ r = 7
              \/ r = 8 \/ r = 9) by lia.
  clearbody r.
  repeat (destruct E as [-> | E]; [intros; try reflexivity; discriminate|]).
  subst r. discriminate.
Qed.

Lemma subtitle_zero (h m s ms : Z) :
  0 <= h < 24 -> 0 <= m < 60 -> 0 <= s < 60 -> 0 <= ms < 1000 ->
  digits 2 h ++ ":" ++ digits 2 m ++ ":" ++ digits 2 s ++ "," ++ digits 3 ms
  = "00:00:00,000" ->
  h = 0 /\ m = 0 /\ s = 0 /\ ms = 0.
Proof.
  intros Hh Hm Hs Hms E. cbn [digits append] in E.
  injection E as E1 E2 E3 E4 E5 E6 E7 E8 E9.
  apply digit_char_zero in E1, E2, E3, E4, E5, E6, E7, E8, E9.
  repeat split; zdiv.
Qed.


Lemma round_half_even_Z (q : Q) (n : Z) : (q == inject_Z n)%Q -> round_half_even q = n.
Proof.
  intros E. unfold round_half_even.
  assert (F : Qfloor q = n) by (rewrite E; apply Qfloor_Z).
  rewrite F.
  assert (L : (q - inject_Z n < 1 # 2)%Q) by (rewrite E; lra).
  destruct (Qcompare_spec (q - inject_Z n) (1 # 2)) as [H|H|H];
    [exfalso; lra | reflexivity | exfalso; lra].
Qed.

(** ** The claims on the fuzz adjustment and the timeline *)

(** C6. The fuzz adjustment returns the adjusted value ([ts - fuzz] when
    expanding the start, [ts + fuzz] when expanding the end) clamped at 0:
    it is 0 when the adjusted value is at most 0 and the adjusted value
    otherwise, so it is never negative; this holds for every [ts] and
    [fuzz], in particular for the non-negative ones.  Adjusting 0.5 by a
    fuzz of 2.0 at the start gives 0. *)
Theorem fz_clamps_at_zero (ts fuzz : pynum) :
  (Qval (fz ts fuzz "-") == Qmax 0 (Qval ts - Qval fuzz))%Q
  /\ (Qval (fz ts fuzz "+") == Qmax 0 (Qval ts + Qval fuzz))%Q
  /\ (0 <= Qval (fz ts fuzz "-"))%Q
  /\ (0 <= Qval (fz ts fuzz "+"))%Q
  /\ fz (PyFloat (1 # 2)) (PyFloat 2) "-" = PyInt 0.
Proof.
  assert (H : forall a, (Qval (if py_le a (PyInt 0) then PyInt 0 else a)
                         == Qmax 0 (Qval a))%Q).
  { intros a. destruct (py_le a (PyInt 0)) eqn:E.
    - apply py_le_true in E. simpl in E.
      rewrite Q.max_l by exact E. reflexivity.
    - apply py_le_false in E. simpl in E.
      rewrite Q.max_r by (apply Qlt_le_weak, E). reflexivity. }
  unfold fz. cbn [String.eqb Ascii.eqb Bool.eqb].
  repeat split.
  - rewrite H, Qval_py_sub. reflexivity.
  - rewrite H, Qval_py_add. reflexivity.
  - rewrite H. apply Q.le_max_l.
  - rewrite H. apply Q.le_max_l.
Qed.

(** C1. For every non-empty list of fuzzed segments the Key-Builder
    returns a timeline with one segment per input segment and without gaps
    or overlaps: the first segment starts at 0 and each later one starts
    where the one before it ends.  The segments (10,12,a), (20,21,b) with a
    fuzz of 0 give the timeline (0,2,a), (2,3,b). *)
Theorem key_timeline_gapless (s : seg) (l : list seg) :
  (exists outs,
      key_timeline (s :: l) = Ok outs
      /\ List.length outs = List.length (s :: l)
      /\ (exists o, nth_error outs 0 = Some o /\ seg_start o = PyInt 0)
      /\ (forall i o1 o2,
             nth_error outs i = Some o1 -> nth_error outs (S i) = Some o2 ->
             seg_start o2 = seg_end o1))
  /\ key_timeline
       [(fz (PyFloat 10) (PyInt 0) "-", fz (PyFloat 12) (PyInt 0) "+", "a");
        (fz (PyFloat 20) (PyInt 0) "-", fz (PyFloat 21) (PyInt 0) "+", "b")]
     = Ok [(PyInt 0, PyFloat 2, "a"); (PyFloat 2, PyFloat 3, "b")].
Proof.
  split; [|vm_compute; reflexivity].
  rewrite key_timeline_cons.
  set (m := seg_start (min_from seg_start s l)).
  set (w := walk (PyInt 0) (map (shift_by m) (sorted_by seg_start (s :: l)))).
  assert (Hg : gapless (PyInt 0) w) by apply walk_gapless.
  assert (Hlen : List.length w = List.length (s :: l)).
  { unfold w. rewrite walk_length, length_map. apply sorted_by_length. }
  exists w. repeat split.
  - exact Hlen.
  - destruct w as [|o w']; [discriminate|].
    exists o. split; [reflexivity | apply Hg].
  - intros i o1 o2. apply (gapless_adjacent w (PyInt 0) i o1 o2 Hg).
Qed.





(** C9. With no segment in the table the Key-Builder raises: the minimum
    over the empty list is a [ValueError], which nothing catches, and the
    run ends without any effect, so no key file is written. *)
Theorem empty_table_raises (translit : ascii -> string) (a : args) (fuzz : pynum) :
  py_min seg_start (@nil seg) = Raise ValueError
  /\ key_timeline [] = Raise ValueError
  /\ parse_data_key translit [] fuzz = Raise ValueError
  /\ fst (main translit a []) = []
  /\ exists e, snd (main translit a []) = Raise e.
Proof.
  repeat split.
  - unfold main. destruct (truthy (arg_audio a)), (truthy (arg_video a)); reflexivity.
  - unfold main. destruct (truthy (arg_audio a)), (truthy (arg_video a));
      eexists; reflexivity.
Qed.


(** ** The claims on parsing and on the end-to-end example *)

Lemma time_formats_none (n : nat) :
  ~ In n [4; 5; 8; 9; 12]%nat -> time_formats n = None.
Proof.
  intros H.
  do 13 (destruct n as [|n]; [try reflexivity; exfalso; apply H; simpl; tauto|]).
  reflexivity.
Qed.

(** C5. Parsing a human timestamp goes by the length of the string: a
    string whose length is none of 4, 5, 8, 9, 12 raises (a [TypeError], as
    the table of formats has no entry for it), so every string that is
    accepted has one of these lengths; 4 and 5 are read as minutes:seconds,
    8 as hours:minutes:seconds, 9 as minutes:seconds.fraction and 12 as
    hours:minutes:seconds.fraction, and the result is the elapsed seconds
    as a float. *)
Theorem parse_secs_by_length (ts : string) :
  (~ In (String.length ts) [4; 5; 8; 9; 12]%nat -> parse_secs ts = Raise TypeError)
  /\ (forall x, parse_secs ts = Ok x -> In (String.length ts) [4; 5; 8; 9; 12]%nat)
  /\ (forall x, parse_secs ts = Ok x -> exists q, x = PyFloat q)
  /\ time_formats 4 = Some "%M:%S"
  /\ time_formats 5 = Some "%M:%S"
  /\ time_formats 8 = Some "%H:%M:%S"
  /\ time_formats 9 = Some "%M:%S.%f"
  /\ time_formats 12 = Some "%H:%M:%S.%f"
  /\ parse_secs "1:23" = Ok (PyFloat 83)
  /\ parse_secs "12:34" = Ok (PyFloat 754)
  /\ parse_secs "01:02:03" = Ok (PyFloat 3723)
  /\ parse_secs "12:34.567" = Ok (PyFloat (754567 # 1000))
  /\ parse_secs "01:02:03.456" = Ok (PyFloat (465432 # 125)).
Proof.
  assert (Hraise : ~ In (String.length ts) [4; 5; 8; 9; 12]%nat ->
                   parse_secs ts = Raise TypeError).
  { intros H. unfold parse_secs. rewrite (time_formats_none _ H). reflexivity. }
  split; [exact Hraise|]. split; [|split].
  - intros x Hx.
    destruct (in_dec Nat.eq_dec (String.length ts) [4; 5; 8; 9; 12]%nat) as [Hin|Hout];
      [exact Hin|].
    rewrite (Hraise Hout) in Hx. discriminate.
  - intros x. unfold parse_secs.
    destruct (strptime ts (time_formats (String.length ts))); simpl; [|discriminate].
    intros [= <-]. eexists. reflexivity.
  - repeat split; vm_compute; reflexivity.
Qed.

Lemma parse_secs_by_length_witness : parse_secs "123" = Raise TypeError.
Proof.
  apply (parse_secs_by_length "123").
  simpl. intros [H|[H|[H|[H|[H|[]]]]]]; discriminate.
Defined.

(** C3, as stated, fails: the predicate built for the example rows is not
    [between(t,10,12)+between(t,20,21)]. *)
Lemma example_predicate_is_not_integral :
  exists ts,
    parse_data_ffmpeg example_rows (PyInt 0) = Ok ts
    /\ between_predicate ts <> "between(t,10,12)+between(t,20,21)".
Proof.
  eexists. split; [vm_compute; reflexivity|].
  vm_compute. discriminate.
Qed.

(** C3, amended. For the example rows with a fuzz of 0 (the default, or
    0.0 given on the command line) the bounds are floats and print with
    their fraction: the predicate is
    [between(t,10.0,12.0)+between(t,20.0,21.0)].  The key rows are
    (00:00:00,000, 00:00:02,000, intro) and (00:00:02,000, 00:00:03,000,
    cafe), given that the table of [unidecode] sends U+00E9 to [e]. *)
Theorem example_end_to_end (translit : ascii -> string) (fuzz : pynum) :
  translit "233"%char = "e" ->
  fuzz = PyInt 0 \/ fuzz = PyFloat 0 ->
  parse_data_ffmpeg example_rows fuzz
  = Ok [(PyFloat 10, PyFloat 12); (PyFloat 20, PyFloat 21)]
  /\ between_predicate [(PyFloat 10, PyFloat 12); (PyFloat 20, PyFloat 21)]
     = "between(t,10.0,12.0)+between(t,20.0,21.0)"
  /\ parse_data_key translit example_rows fuzz
     = Ok [(VStr "00:00:00,000", VStr "00:00:02,000", "intro");
           (VStr "00:00:02,000", VStr "00:00:03,000", "cafe")].
Proof.
  intros He Hf.
  assert (Hk : forall f, f = PyInt 0 \/ f = PyFloat 0 ->
             tsconv_keys example_rows f
             = Ok [(PyFloat 10, PyFloat 12, "intro");
                   (PyFloat 20, PyFloat 21,
                    String "c" (String "a" (String "f" (String "233" ""))))]).
  { intros f [-> | ->]; vm_compute; reflexivity. }
  split; [|split].
  - destruct Hf as [-> | ->]; vm_compute; reflexivity.
  - vm_compute. reflexivity.
  - unfold parse_data_key. rewrite (Hk fuzz Hf). cbn [bind].
    replace (key_timeline _) with
      (Ok [(PyInt 0, PyFloat 2, "intro");
           (PyFloat 2, PyFloat 3,
            String "c" (String "a" (String "f" (String "233" ""))))])
      by (vm_compute; reflexivity).
    cbn [bind map_result].
    replace (conv_time (VNum (PyInt 0))) with (Ok (VStr "00:00:00,000"))
      by (vm_compute; reflexivity).
    replace (conv_time (VNum (PyFloat 2))) with (Ok (VStr "00:00:02,000"))
      by (vm_compute; reflexivity).
    replace (conv_time (VNum (PyFloat 3))) with (Ok (VStr "00:00:03,000"))
      by (vm_compute; reflexivity).
    cbn [bind unidecode]. rewrite He. reflexivity.
Qed.

Lemma example_end_to_end_witness :
  parse_data_key translit_letters example_rows (PyInt 0)
  = Ok [(VStr "00:00:00,000", VStr "00:00:02,000", "intro");
        (VStr "00:00:02,000", VStr "00:00:03,000", "cafe")].
Proof.
  apply (example_end_to_end translit_letters (PyInt 0)).
  - reflexivity.
  - left. reflexivity.
Defined.

(** ** The shape of a subtitle time *)

Lemma subtitle_of_us_shape (us : Z) :
  String.length (subtitle_of_us us) = 12%nat /\ is_subtitle (subtitle_of_us us) = true.
Proof.
  unfold subtitle_of_us, is_subtitle.
  cbn [digits append String.length Nat.sub Nat.leb str_take str_drop all_digits andb].
  rewrite !digit_char_in_range. split; reflexivity.
Qed.

(** * Further properties of the code *)

(** ** Both pipelines *)

Lemma map_result_length {A B : Type} (f : A -> result B) :
  forall l r, map_result f l = Ok r -> List.length r = List.length l.
Proof.
  induction l as [|a l IH]; intros r Hr; simpl in Hr.
  - injection Hr as <-. reflexivity.
  - destruct (f a); [|discriminate]. cbn [bind] in Hr.
    destruct (map_result f l) as [bs|]; [|discriminate]. cbn [bind] in Hr.
    injection Hr as <-. simpl. rewrite (IH bs eq_refl). reflexivity.
Qed.

(** X1. The Command-Builder and the Key-Builder work on the same fuzzed
    intervals: [parse_data_ffmpeg] returns the (start, end) pairs of the
    segments of line 36, row by row, and raises what that line raises. *)
Theorem ffmpeg_intervals_are_key_intervals (tsdata : list row) (fuzz : pynum) :
  parse_data_ffmpeg tsdata fuzz
  = (let* segs := tsconv_keys tsdata fuzz in Ok (map seg_bounds segs)).
Proof.
  unfold parse_data_ffmpeg, tsconv_keys.
  induction tsdata as [|[[x y] lab] l IH]; [reflexivity|].
  cbn [map_result]. rewrite IH.
  destruct (parse_secs x); [|reflexivity].
  destruct (parse_secs y); [|reflexivity].
  cbn [bind].
  match goal with |- context [map_result ?f l] => destruct (map_result f l) end;
    reflexivity.
Qed.

Lemma rows_chain_adjacent (rows : list key_row) :
  forall v i r1 r2,
    rows_chain v rows ->
    nth_error rows i = Some r1 -> nth_error rows (S i) = Some r2 ->
    fst (fst r2) = snd (fst r1).
Proof.
  induction rows as [|r rows IH]; intros v i r1 r2 Hc H1 H2.
  - destruct i; discriminate.
  - destruct Hc as [_ Hc]. destruct i as [|i].
    + simpl in H1. injection H1 as <-.
      destruct rows as [|r' rows]; [discriminate|].
      simpl in H2. injection H2 as <-. apply Hc.
    + simpl in H1. apply (IH _ i r1 r2 Hc H1 H2).
Qed.

Lemma key_rows_chain (translit : ascii -> string) (outs : list seg) :
  forall c v rows,
    gapless c outs ->
    conv_time (VNum c) = Ok v ->
    map_result
      (fun '(x, y, lab) =>
         let* cx := conv_time (VNum x) in
         let* cy := conv_time (VNum y) in
         Ok (cx, cy, unidecode translit lab)) outs = Ok rows ->
    rows_chain v rows.
Proof.
  induction outs as [|[[x y] lab] outs IH]; intros c v rows Hg Hv Hr; cbn [map_result] in Hr.
  - injection Hr as <-. exact I.
  - destruct Hg as [Hx Hg]. unfold seg_start, seg_end in *. simpl in Hx, Hg. subst x.
    rewrite Hv in Hr. cbn [bind] in Hr.
    destruct (conv_time (VNum y)) as [cy|] eqn:Ey; [|discriminate]. cbn [bind] in Hr.
    match type of Hr with context [map_result ?f outs] =>
      destruct (map_result f outs) as [rs|] eqn:Ers; [|discriminate] end.
    cbn [bind] in Hr. injection Hr as <-. split; [reflexivity|]. simpl.
    apply (IH y cy rs Hg Ey eq_refl).
Qed.

(** X2. When [parse_data_key] returns, there is one key row per row of
    the table, the first row starts at [00:00:00,000], and the first time
    of every later row is, as a string, the second time of the row before
    it. *)
Theorem key_rows_count_and_chain (translit : ascii -> string) (tsdata : list row)
        (fuzz : pynum) (rows : list key_row) :
  parse_data_key translit tsdata fuzz = Ok rows ->
  List.length rows = List.length tsdata
  /\ (exists r, nth_error rows 0 = Some r /\ fst (fst r) = VStr "00:00:00,000")
  /\ (forall i r1 r2,
        nth_error rows i = Some r1 -> nth_error rows (S i) = Some r2 ->
        fst (fst r2) = snd (fst r1)).
Proof.
  intros Hr. unfold parse_data_key in Hr.
  destruct (tsconv_keys tsdata fuzz) as [segs|] eqn:Es; [|discriminate].
  cbn [bind] in Hr.
  destruct segs as [|s l]; [discriminate|].
  rewrite key_timeline_cons in Hr. cbn [bind] in Hr.
  set (w := walk (PyInt 0) _) in Hr.
  assert (Hg : gapless (PyInt 0) w) by apply walk_gapless.
  assert (Hc : rows_chain (VStr "00:00:00,000") rows)
    by (apply (key_rows_chain translit w (PyInt 0) _ rows Hg eq_refl Hr)).
  assert (Hlen : List.length rows = List.length tsdata).
  { rewrite (map_result_length _ _ _ Hr). unfold w.
    rewrite walk_length, length_map, sorted_by_length.
    apply (map_result_length _ _ _ Es). }
  split; [exact Hlen|]. split.
  - destruct rows as [|r rows].
    + apply map_result_length in Es.
      discriminate (eq_trans Es (eq_sym Hlen)).
    + exists r. split; [reflexivity | apply Hc].
  - intros i r1 r2. apply (rows_chain_adjacent rows _ i r1 r2 Hc).
Qed.

Lemma key_rows_count_and_chain_witness :
  exists r,
    nth_error [(VStr "00:00:00,000", VStr "00:00:02,000", "intro");
               (VStr "00:00:02,000", VStr "00:00:03,000", "cafe")] 0 = Some r
    /\ fst (fst r) = VStr "00:00:00,000".
Proof.
  apply (key_rows_count_and_chain translit_letters example_rows (PyInt 0)).
  vm_compute. reflexivity.
Defined.

(** ** The direction of the timeline *)


Lemma walk_forward (m : pynum) (l : list seg) :
  Forall (fun g => (Qval (seg_start g) <= Qval (seg_end g))%Q) l ->
  forall c, (0 <= Qval c)%Q ->
    Forall (fun o => (0 <= Qval (seg_start o) <= Qval (seg_end o))%Q)
           (walk c (map (shift_by m) l)).
Proof.
  induction 1 as [|[[x y] lab] l Hxy Hl IH]; intros c Hc; simpl; constructor.
  - unfold seg_start, seg_end in *. simpl in *.
    rewrite Qval_py_add, Qval_py_sub. lra.
  - apply IH. unfold seg_start, seg_end in *. simpl in *.
    rewrite Qval_py_add, Qval_py_sub. lra.
Qed.

(** X4. When no segment ends before it starts, every output segment
    starts at or after 0 and ends at or after its start. *)
Theorem timeline_runs_forward (s : seg) (l : list seg) :
  Forall (fun g => (Qval (seg_start g) <= Qval (seg_end g))%Q) (s :: l) ->
  exists outs,
    key_timeline (s :: l) = Ok outs
    /\ Forall (fun o => (0 <= Qval (seg_start o) <= Qval (seg_end o))%Q) outs.
Proof.
  intros H. rewrite key_timeline_cons. eexists. split; [reflexivity|].
  apply walk_forward; [|change (Qval (PyInt 0)) with 0%Q; lra].
  apply (Permutation_Forall (Permutation_sym (sorted_by_perm seg_start (s :: l)))).
  exact H.
Qed.

Lemma timeline_runs_forward_witness :
  exists outs,
    key_timeline [(PyFloat 20, PyFloat 21, "b"); (PyFloat 10, PyFloat 12, "a")] = Ok outs
    /\ Forall (fun o => (0 <= Qval (seg_start o) <= Qval (seg_end o))%Q) outs.
Proof.
  apply timeline_runs_forward.
  repeat constructor; unfold seg_start, seg_end; simpl; lra.
Defined.

(** ** The minimum *)

Lemma min_from_spec {A : Type} (key : A -> pynum) (l : list A) :
  forall best p1 p2,
    Forall (fun b => (Qval (key best) < Qval (key b))%Q) p1 ->
    Forall (fun b => (Qval (key best) <= Qval (key b))%Q) p2 ->
    exists l1 l2,
      (p1 ++ best :: p2 ++ l = l1 ++ min_from key best l :: l2)%list
      /\ Forall (fun b => (Qval (key (min_from key best l)) < Qval (key b))%Q) l1
      /\ Forall (fun b => (Qval (key (min_from key best l)) <= Qval (key b))%Q) l2.
Proof.
  induction l as [|a l IH]; intros best p1 p2 H1 H2; simpl.
  - exists p1, p2. rewrite app_nil_r. auto.
  - destruct (py_lt (key a) (key best)) eqn:E.
    + apply py_lt_true in E.
      destruct (IH a (p1 ++ best :: p2)%list []) as (l1 & l2 & Heq & Hl1 & Hl2).
      * apply Forall_app. split.
        -- eapply Forall_impl; [|exact H1]. simpl. intros; lra.
        -- constructor; [exact E|].
           eapply Forall_impl; [|exact H2]. simpl. intros; lra.
      * constructor.
      * exists l1, l2. split; [|auto].
        rewrite <- Heq. rewrite <- !app_assoc. reflexivity.
    + apply py_lt_false in E.
      destruct (IH best p1 (p2 ++ [a])%list H1) as (l1 & l2 & Heq & Hl1 & Hl2).
      * apply Forall_app. split; [exact H2 | constructor; [exact E | constructor]].
      * exists l1, l2. split; [|auto].
        rewrite <- Heq. rewrite <- !app_assoc. reflexivity.
Qed.

(** X5. [min(l, key=...)] on a non-empty list returns the first of the
    elements with the least key: the elements before it have a greater key,
    those after it a key that is not smaller. *)
Theorem py_min_is_first_least {A : Type} (key : A -> pynum) (a : A) (l : list A) :
  exists m l1 l2,
    py_min key (a :: l) = Ok m
    /\ a :: l = (l1 ++ m :: l2)%list
    /\ Forall (fun b => (Qval (key m) < Qval (key b))%Q) l1
    /\ Forall (fun b => (Qval (key m) <= Qval (key b))%Q) l2.
Proof.
  destruct (min_from_spec key l a [] []) as (l1 & l2 & Heq & H1 & H2);
    [constructor | constructor |].
  exists (min_from key a l), l1, l2. repeat split; assumption.
Qed.

(** X6. After the shift of line 40 no re-based start is negative and one
    of them is 0. *)
Theorem rebased_starts_from_zero (s : seg) (l : list seg) :
  exists m,
    py_min seg_start (s :: l) = Ok m
    /\ Forall (fun sh => (0 <= Qval (shifted_start sh))%Q)
              (map (shift_by (seg_start m)) (s :: l))
    /\ Exists (fun sh => (Qval (shifted_start sh) == 0)%Q)
              (map (shift_by (seg_start m)) (s :: l)).
Proof.
  destruct (min_from_spec seg_start l s [] []) as (l1 & l2 & Heq & H1 & H2);
    [constructor | constructor |].
  cbn [app] in Heq.
  exists (min_from seg_start s l). split; [reflexivity|].
  set (m := min_from seg_start s l) in *.
  assert (Hs : forall g, shifted_start (shift_by (seg_start m) g)
                         = py_sub (seg_start g) (seg_start m))
    by (intros [[x y] lab]; reflexivity).
  rewrite Heq. split.
  - rewrite map_app. apply Forall_app. split.
    + apply Forall_map. eapply Forall_impl; [|exact H1].
      intros g Hg. simpl in Hg. rewrite Hs, Qval_py_sub. lra.
    + cbn [map]. constructor.
      * rewrite Hs, Qval_py_sub. lra.
      * apply Forall_map. eapply Forall_impl; [|exact H2].
        intros g Hg. simpl in Hg. rewrite Hs, Qval_py_sub. lra.
  - rewrite map_app. apply Exists_app. right. cbn [map]. constructor.
    rewrite Hs, Qval_py_sub. lra.
Qed.

(** ** The order of the rows *)




(** ** Reading times *)

(** X9. [conv_time] reads every subtitle time [HH:MM:SS,mmm] with hours
    below 24, minutes and seconds below 60, as
    [HH * 3600 + MM * 60 + SS + mmm / 1000] seconds. *)
Theorem conv_time_reads_subtitle (h m s ms : Z) :
  0 <= h < 24 -> 0 <= m < 60 -> 0 <= s < 60 -> 0 <= ms < 1000 ->
  conv_time (VStr (digits 2 h ++ ":" ++ digits 2 m ++ ":" ++ digits 2 s
                     ++ "," ++ digits 3 ms))
  = Ok (VNum (seconds_of_us (((h * 60 + m) * 60 + s) * 1000000 + ms * 1000))).
Proof.
  intros Hh Hm Hs Hms. unfold conv_time.
  match goal with |- context [String.eqb ?a ?b] => destruct (String.eqb_spec a b) as [E|_] end.
  - apply (subtitle_zero _ _ _ _ Hh Hm Hs Hms) in E.
    destruct E as (-> & -> & -> & ->). reflexivity.
  - rewrite (strptime_subtitle _ _ _ _ Hh Hm Hs Hms). reflexivity.
Qed.

Lemma conv_time_reads_subtitle_witness :
  conv_time (VStr "01:01:01,250") = Ok (VNum (PyFloat (14645 # 4))).
Proof.
  apply (conv_time_reads_subtitle 1 1 1 250); lia.
Defined.

Lemma match_minute_digit : forall m, 0 <= m < 10 ->
  forall items t rest,
    match_items (Dir "M" :: Lit ":" :: items) t (digits 1 m ++ ":" ++ rest)
    = match_items items (mk_tm (tm_hour t) m (tm_sec t) (tm_usec t)) rest.
Proof.
  enum_below 10%nat; intros items t rest; cbn [match_items];
    generalize (match_items items); intros k; cbv;
    match goal with |- context [k ?a ?b] => destruct (k a b) end; reflexivity.
Qed.

Lemma match_seconds_dot : forall s, 0 <= s < 60 ->
  forall items t rest,
    match_items (Dir "S" :: Lit "." :: items) t (digits 2 s ++ "." ++ rest)
    = match_items items (mk_tm (tm_hour t) (tm_min t) s (tm_usec t)) rest.
Proof.
  enum_below 60%nat; intros items t rest; cbn [match_items];
    generalize (match_items items); intros k; cbv;
    match goal with |- context [k ?a ?b] => destruct (k a b) end; reflexivity.
Qed.

Lemma match_seconds_end : forall s, 0 <= s < 60 ->
  forall t,
    match_items [Dir "S"] t (digits 2 s)
    = Some (mk_tm (tm_hour t) (tm_min t) s (tm_usec t), "").
Proof. enum_below 60%nat; intros t; reflexivity. Qed.

(** X10. [parse_secs] reads [MM:SS], [M:SS], [HH:MM:SS], [MM:SS.mmm] and
    [HH:MM:SS.mmm] (hours below 24, minutes and seconds below 60) as the
    elapsed seconds they denote. *)
Theorem parse_secs_reads_well_formed (h m s ms : Z) :
  0 <= h < 24 -> 0 <= m < 60 -> 0 <= s < 60 -> 0 <= ms < 1000 ->
  parse_secs (digits 2 m ++ ":" ++ digits 2 s)
  = Ok (seconds_of_us ((m * 60 + s) * 1000000))
  /\ (m < 10 ->
      parse_secs (digits 1 m ++ ":" ++ digits 2 s)
      = Ok (seconds_of_us ((m * 60 + s) * 1000000)))
  /\ parse_secs (digits 2 h ++ ":" ++ digits 2 m ++ ":" ++ digits 2 s)
     = Ok (seconds_of_us (((h * 60 + m) * 60 + s) * 1000000))
  /\ parse_secs (digits 2 m ++ ":" ++ digits 2 s ++ "." ++ digits 3 ms)
     = Ok (seconds_of_us ((m * 60 + s) * 1000000 + ms * 1000))
  /\ parse_secs (digits 2 h ++ ":" ++ digits 2 m ++ ":" ++ digits 2 s
                   ++ "." ++ digits 3 ms)
     = Ok (seconds_of_us (((h * 60 + m) * 60 + s) * 1000000 + ms * 1000)).
Proof.
  intros Hh Hm Hs Hms.
    unfold parse_secs, strptime, seconds_of_us, total_seconds.
  repeat split; try intros Hm10.
  - change (time_formats _) with (Some "%M:%S"). cbv beta iota.
    change (compile_format "%M:%S") with [Dir "M"; Lit ":"; Dir "S"]%char.
    rewrite (match_minutes m Hm), (match_seconds_end s Hs).
    cbn [tm_sec tm_hour tm_min tm_usec tm0 bind].
    destruct (Z.ltb_spec 59 s); [lia|]. cbn [bind tm_sec tm_hour tm_min tm_usec].
    match goal with
    | |- Ok (PyFloat (Qred (?a # _))) = Ok (PyFloat (Qred (?b # _))) =>
        replace a with b by lia; reflexivity
    end.
  - change (time_formats _) with (Some "%M:%S"). cbv beta iota.
    change (compile_format "%M:%S") with [Dir "M"; Lit ":"; Dir "S"]%char.
    rewrite (match_minute_digit m ltac:(lia)), (match_seconds_end s Hs).
    cbn [tm_sec tm_hour tm_min tm_usec tm0 bind].
    destruct (Z.ltb_spec 59 s); [lia|]. cbn [bind tm_sec tm_hour tm_min tm_usec].
    match goal with
    | |- Ok (PyFloat (Qred (?a # _))) = Ok (PyFloat (Qred (?b # _))) =>
        replace a with b by lia; reflexivity
    end.
  - change (time_formats _) with (Some "%H:%M:%S"). cbv beta iota.
    change (compile_format "%H:%M:%S")
      with [Dir "H"; Lit ":"; Dir "M"; Lit ":"; Dir "S"]%char.
    rewrite (match_hours h Hh), (match_minutes m Hm), (match_seconds_end s Hs).
    cbn [tm_sec tm_hour tm_min tm_usec tm0 bind].
    destruct (Z.ltb_spec 59 s); [lia|]. cbn [bind tm_sec tm_hour tm_min tm_usec].
    match goal with
    | |- Ok (PyFloat (Qred (?a # _))) = Ok (PyFloat (Qred (?b # _))) =>
        replace a with b by lia; reflexivity
    end.
  - change (time_formats _) with (Some "%M:%S.%f"). cbv beta iota.
    change (compile_format "%M:%S.%f")
      with [Dir "M"; Lit ":"; Dir "S"; Lit "."; Dir "f"]%char.
    rewrite (match_minutes m Hm), (match_seconds_dot s Hs), (match_millis ms _ Hms).
    cbn [tm_sec tm_hour tm_min tm_usec tm0 bind].
    destruct (Z.ltb_spec 59 s); [lia|]. cbn [bind tm_sec tm_hour tm_min tm_usec].
    match goal with
    | |- Ok (PyFloat (Qred (?a # _))) = Ok (PyFloat (Qred (?b # _))) =>
        replace a with b by lia; reflexivity
    end.
  - change (time_formats _) with (Some "%H:%M:%S.%f"). cbv beta iota.
    change (compile_format "%H:%M:%S.%f")
      with [Dir "H"; Lit ":"; Dir "M"; Lit ":"; Dir "S"; Lit "."; Dir "f"]%char.
    rewrite (match_hours h Hh), (match_minutes m Hm), (match_seconds_dot s Hs),
      (match_millis ms _ Hms).
    cbn [tm_sec tm_hour tm_min tm_usec tm0 bind].
    destruct (Z.ltb_spec 59 s); [lia|]. cbn [bind tm_sec tm_hour tm_min tm_usec].
    match goal with
    | |- Ok (PyFloat (Qred (?a # _))) = Ok (PyFloat (Qred (?b # _))) =>
        replace a with b by lia; reflexivity
    end.
Qed.

Lemma parse_secs_reads_well_formed_witness :
  parse_secs "01:02:03.456" = Ok (PyFloat (465432 # 125)).
Proof.
  apply (parse_secs_reads_well_formed 1 2 3 456); lia.
Defined.

Lemma first_some_In {A B : Type} (f : A -> option B) (l : list A) (b : B) :
  first_some f l = Some b -> exists a, In a l /\ f a = Some b.
Proof.
  induction l as [|a l IH]; simpl; [discriminate|].
  destruct (f a) as [b'|] eqn:E.
  - intros [= <-]. exists a. auto.
  - intros H. destruct (IH H) as (a' & Ha & Hf). exists a'. auto.
Qed.

Lemma in_range_bounds (lo hi c : ascii) :
  in_range lo hi c = true ->
  Z.of_nat (nat_of_ascii lo) <= Z.of_nat (nat_of_ascii c) <= Z.of_nat (nat_of_ascii hi).
Proof.
  unfold in_range. rewrite andb_true_iff, !Nat.leb_le. lia.
Qed.

(** Inverting a successful match of a sequence of classes. *)
Ltac invert_classes H :=
  cbn [match_classes cls any_digit] in H;
  repeat match type of H with
    | Some _ = Some _ => injection H as <- <-
    | (if in_range ?lo ?hi ?c then _ else _) = Some _ =>
        let R := fresh "R" in
        destruct (in_range lo hi c) eqn:R; [apply in_range_bounds in R|discriminate]
    | match ?s with EmptyString => _ | String _ _ => _ end = Some _ =>
        let c := fresh "c" in
        destruct s as [|c s]; [discriminate|]
    | match ?m with Some _ => _ | None => _ end = Some _ =>
        let E := fresh "E" in
        let tx := fresh "tx" in
        let rs := fresh "rs" in
        destruct m as [[tx rs]|] eqn:E; [|discriminate];
        injection H as <- <-; invert_classes E
    end.

Lemma set_field_ok (c : ascii) (cs : list (ascii * ascii)) (s text rest : string) (t : tm) :
  In cs (directive_regex c) ->
  match_classes cs s = Some (text, rest) ->
  tm_ok t -> tm_ok (set_field c text t).
Proof.
  unfold directive_regex, set_field, tm_ok.
  intros Hin Hm (Hh & Hmi & Hs & Hu).
  destruct (Ascii.eqb c "H"); [|destruct (Ascii.eqb c "M"); [|destruct (Ascii.eqb c "S");
    [|destruct (Ascii.eqb c "f"); [|destruct Hin]]]];
    cbn [In repeat] in Hin;
    repeat (destruct Hin as [<- | Hin]; [|try contradiction]);
    try contradiction.
  all: invert_classes Hm.
  all: cbn [tm_hour tm_min tm_sec tm_usec String.length Nat.sub str_repeat append
            int_of_digits int_of_digits_acc]; unfold int_of_digits;
       cbn [int_of_digits_acc].
  all: change (Z.of_nat (nat_of_ascii "0")) with 48 in *;
       change (Z.of_nat (nat_of_ascii "1")) with 49 in *;
       change (Z.of_nat (nat_of_ascii "2")) with 50 in *;
       change (Z.of_nat (nat_of_ascii "3")) with 51 in *;
       change (Z.of_nat (nat_of_ascii "5")) with 53 in *;
       change (Z.of_nat (nat_of_ascii "6")) with 54 in *;
       change (Z.of_nat (nat_of_ascii "9")) with 57 in *.
  all: lia.
Qed.

Lemma match_items_ok (items : list fmt_item) :
  forall t s t' rest,
    match_items items t s = Some (t', rest) -> tm_ok t -> tm_ok t'.
Proof.
  induction items as [|[c|c] items IH]; intros t s t' rest H Ht; cbn [match_items] in H.
  - injection H as <- <-. exact Ht.
  - apply first_some_In in H. destruct H as (cs & Hin & H).
    destruct (match_classes cs s) as [[text r]|] eqn:E; [|discriminate].
    apply (IH _ _ _ _ H). apply (set_field_ok c cs s text r t Hin E Ht).
  - destruct s as [|c' s]; [discriminate|].
    destruct (Ascii.eqb c' c); [|discriminate].
    apply (IH _ _ _ _ H Ht).
Qed.

Lemma strptime_ok (data : string) (format : option string) (t : tm) :
  strptime data format = Ok t -> tm_ok t /\ tm_sec t <= 59.
Proof.
  unfold strptime. destruct format as [fmt|]; [|discriminate].
  destruct (match_items (compile_format fmt) tm0 data) as [[t' [|c r]]|] eqn:E;
    try discriminate.
  destruct (Z.ltb_spec 59 (tm_sec t')); [discriminate|].
  intros [= <-]. split; [|assumption].
  apply (match_items_ok _ _ _ _ _ E). unfold tm_ok. simpl. lia.
Qed.

Lemma total_seconds_range (t : tm) :
  tm_ok t -> tm_sec t <= 59 ->
  exists us, 0 <= us < us_per_day /\ total_seconds t = seconds_of_us us.
Proof.
  intros (Hh & Hm & Hs & Hu) Hs'.
  exists (((tm_hour t * 60 + tm_min t) * 60 + tm_sec t) * 1000000 + tm_usec t).
  split; [unfold us_per_day; lia | reflexivity].
Qed.

Lemma Qval_seconds_of_us (us : Z) :
  (Qval (seconds_of_us us) == us # 1000000)%Q.
Proof. unfold seconds_of_us. cbn [Qval]. apply Qred_correct. Qed.

(** X11. Whatever string is accepted, by [parse_secs] or by the string
    branch of [conv_time], the result is a whole number of microseconds from
    0 up to, not including, 24 hours: no time of 24 hours or more can be
    entered or read back. *)
Theorem parsed_times_are_within_a_day :
  (forall ts x,
      parse_secs ts = Ok x ->
      exists us, 0 <= us < us_per_day /\ x = seconds_of_us us
                 /\ (0 <= Qval x < 86400)%Q)
  /\ (forall s y,
         conv_time (VStr s) = Ok y ->
         exists us, 0 <= us < us_per_day /\ y = VNum (seconds_of_us us)
                    /\ (0 <= Qval (seconds_of_us us) < 86400)%Q).
Proof.
  assert (R : forall us, 0 <= us < us_per_day ->
                (0 <= Qval (seconds_of_us us) < 86400)%Q).
  { intros us H. rewrite Qval_seconds_of_us. unfold us_per_day in H.
    unfold Qle, Qlt. simpl. lia. }
  split.
  - intros ts x H. unfold parse_secs in H.
    destruct (strptime ts (time_formats (String.length ts))) as [t|] eqn:E;
      [|discriminate].
    cbn [bind] in H. injection H as <-.
    destruct (strptime_ok _ _ _ E) as [Hok Hs].
    destruct (total_seconds_range t Hok Hs) as (us & Hus & ->).
    exists us. auto.
  - intros s y H. unfold conv_time in H.
    destruct (String.eqb s "00:00:00,000").
    + injection H as <-. exists 0. split; [unfold us_per_day; lia|].
      split; [reflexivity | apply R; unfold us_per_day; lia].
    + destruct (strptime s (Some "%H:%M:%S,%f")) as [t|] eqn:E; [|discriminate].
      cbn [bind] in H. injection H as <-.
      destruct (strptime_ok _ _ _ E) as [Hok Hs].
      destruct (total_seconds_range t Hok Hs) as (us & Hus & ->).
      exists us. auto.
Qed.

(** ** Whole seconds from ten hours on *)

Lemma timedelta_us_zero (x : pynum) :
  py_eq x (PyInt 0) = true -> timedelta_us x = 0.
Proof.
  intros E. apply Qeq_bool_iff in E. unfold timedelta_us.
  destruct x as [n|q]; cbn [Qval] in E.
  - assert (n = 0) by (apply inject_Z_injective; exact E). subst n. reflexivity.
  - apply round_half_even_Z. rewrite E. reflexivity.
Qed.

(** X12. A whole number of seconds from 10 hours up to 24 hours is not
    rendered as a subtitle time: [str(timedelta)] has 8 characters, the
    test for 6 or 7 does not add the microseconds, the slice cuts the
    seconds off, and the result is [HH:MM] behind seven zeros. *)
Theorem conv_time_drops_seconds_from_ten_hours (x : pynum) :
  36000000000 <= timedelta_us x < us_per_day ->
  timedelta_us x mod 1000000 = 0 ->
  let sec := timedelta_us x / 1000000 in
  conv_time (VNum x)
  = Ok (VStr ("0000000" ++ digits 2 (sec / 3600) ++ ":" ++ digits 2 (sec / 60 mod 60))).
Proof.
  intros Hus Hwhole sec. unfold conv_time.
  destruct (py_eq x (PyInt 0)) eqn:Hne;
    [apply timedelta_us_zero in Hne; lia|].
  unfold timedelta_of_seconds. subst sec.
  set (us := timedelta_us x) in *. unfold us_per_day in *.
  replace (us / 86400000000) with 0 by zdiv.
  replace (us mod 86400000000) with us by zdiv.
  cbn [Z.abs Z.ltb Z.compare bind].
  unfold timedelta_str. cbn [td_days td_seconds td_microseconds Z.eqb].
  rewrite Hwhole. cbn [Z.eqb].
  set (sec := us / 1000000) in *.
  assert (Hsec : 36000 <= sec < 86400) by (unfold sec; zdiv).
  replace (sec / 3600) with (sec / 60 / 60) by zdiv.
  set (hh := sec / 60 / 60) in *.
  set (mm := sec / 60 mod 60) in *.
  set (ss := sec mod 60) in *.
  assert (Hhh : 10 <= hh < 24) by (unfold hh; zdiv).
  assert (Hmm : 0 <= mm < 60) by (unfold mm; zdiv).
  assert (Hss : 0 <= ss < 60) by (unfold ss; zdiv).
  rewrite (fmt_0d_digits 1 mm), (fmt_0d_digits 1 ss)
    by (change (10 ^ Z.of_nat 2) with 100; lia).
  rewrite (fmt_d_hours hh) by lia.
  destruct (Z.ltb_spec hh 10) as [Hh | Hh]; [lia|].
  clearbody hh mm ss. clear Hus Hsec Hne Hwhole sec us.
  cbn [digits append str_replace]. rewrite ?digit_char_not_dot.
  cbn - [digit_char Z.div]. reflexivity.
Qed.

Lemma conv_time_drops_seconds_from_ten_hours_witness :
  conv_time (VNum (PyFloat 36000)) = Ok (VStr "000000010:00").
Proof.
  apply (conv_time_drops_seconds_from_ten_hours (PyFloat 36000)).
  - vm_compute. split; [discriminate | reflexivity].
  - reflexivity.
Defined.

(** ** The name of the output *)

Lemma str_take_drop (n : nat) : forall s, str_take n s ++ str_drop n s = s.
Proof.
  induction n as [|n IH]; intros [|c s]; simpl; try reflexivity.
  rewrite IH. reflexivity.
Qed.

Lemma str_take_app (a b : string) : str_take (String.length a) (a ++ b) = a.
Proof. induction a as [|c a IH]; simpl; [destruct b|rewrite IH]; reflexivity. Qed.

Lemma str_drop_app (a b : string) : str_drop (String.length a) (a ++ b) = b.
Proof. induction a as [|c a IH]; simpl; [destruct b; reflexivity | exact IH]. Qed.

Lemma rfind_absent (c : ascii) (s : string) :
  forall i found, has_char c s = false -> str_rfind_from c i s found = found.
Proof.
  induction s as [|c' s IH]; intros i found H; simpl in *; [reflexivity|].
  apply orb_false_iff in H. destruct H as [H1 H2].
  rewrite H1. apply IH, H2.
Qed.

Lemma rfind_last (c : ascii) (a b : string) :
  forall i found,
    has_char c b = false ->
    str_rfind_from c i (a ++ String c b) found = i + Z.of_nat (String.length a).
Proof.
  induction a as [|c' a IH]; intros i found H.
  - simpl. rewrite Ascii.eqb_refl, (rfind_absent c b _ _ H). lia.
  - cbn [append str_rfind_from String.length].
    rewrite (IH _ _ H). lia.
Qed.

Lemma rfind_app_absent (c : ascii) (a b : string) :
  forall i found,
    has_char c b = false ->
    str_rfind_from c i (a ++ b) found = str_rfind_from c i a found.
Proof.
  induction a as [|c' a IH]; intros i found H.
  - simpl. apply rfind_absent, H.
  - cbn [append str_rfind_from]. apply IH, H.
Qed.

Lemma rfind_bound (c : ascii) (s : string) :
  forall i found,
    found < i ->
    str_rfind_from c i s found < i + Z.of_nat (String.length s).
Proof.
  induction s as [|c' s IH]; intros i found H.
  - simpl. lia.
  - cbn [str_rfind_from String.length]. rewrite Nat2Z.inj_succ.
    destruct (Ascii.eqb c' c); specialize (IH (i + 1)); [specialize (IH i)|specialize (IH found)];
      lia.
Qed.

Lemma has_char_app (c : ascii) (a b : string) :
  has_char c (a ++ b) = has_char c a || has_char c b.
Proof.
  induction a as [|c' a IH]; simpl; [reflexivity|].
  rewrite IH, orb_assoc. reflexivity.
Qed.

Lemma output_filename_differs (filein : string) : output_filename filein <> filein.
Proof.
  assert (Hlen : String.length (output_filename filein) = (String.length filein + 4)%nat).
  { unfold output_filename, splitext.
    match goal with |- context [if ?b then _ else _] => destruct b end.
    - pose proof (f_equal String.length
                            (str_take_drop (Z.to_nat (str_rfind "." filein)) filein)) as L.
      rewrite str_length_app in L. rewrite !str_length_app. simpl. lia.
    - rewrite !str_length_app. simpl. lia. }
  intros E. rewrite E in Hlen. lia.
Qed.

(** X13. [output_filename] splits the name in two parts that make up the
    name and puts [_out] between them: the result is four characters longer
    and never the name it was given. *)
Theorem output_filename_inserts_out (filein : string) :
  exists base ext,
    splitext filein = (base, ext)
    /\ base ++ ext = filein
    /\ output_filename filein = base ++ "_out" ++ ext
    /\ String.length (output_filename filein) = (String.length filein + 4)%nat
    /\ output_filename filein <> filein.
Proof.
  assert (S : exists base ext, splitext filein = (base, ext) /\ base ++ ext = filein).
  { unfold splitext.
    match goal with |- context [if ?b then _ else _] => destruct b end.
    - eexists _, _. split; [reflexivity | apply str_take_drop].
    - exists filein, "". split; [reflexivity | apply str_app_nil_r]. }
  destruct S as (base & ext & Hs & Hcat).
  assert (Hout : output_filename filein = base ++ "_out" ++ ext)
    by (unfold output_filename; rewrite Hs; reflexivity).
  exists base, ext. repeat split; try assumption.
  - rewrite Hout, <- Hcat, !str_length_app. simpl. lia.
  - apply output_filename_differs.
Qed.

(** X14. For a name [stem.ext] in a directory, where the stem has a
    character other than a dot and the extension has no dot, [_out] goes
    in front of the extension and the directory is kept. *)
Theorem output_filename_of_a_plain_name (dir stem ext : string) :
  dir = "" \/ (exists d, dir = d ++ "/") ->
  has_char "/" stem = false -> has_other "." stem = true ->
  has_char "/" ext = false -> has_char "." ext = false ->
  output_filename (dir ++ stem ++ "." ++ ext) = dir ++ stem ++ "_out." ++ ext.
Proof.
  intros Hdir Hs1 Hs2 He1 He2.
  assert (Hdot : str_rfind "." (dir ++ stem ++ "." ++ ext)
                 = Z.of_nat (String.length (dir ++ stem))).
  { unfold str_rfind. rewrite <- str_app_assoc.
    change ("." ++ ext) with (String "." ext).
    rewrite (rfind_last "." (dir ++ stem) ext 0 (-1) He2). lia. }
  assert (Hsep : str_rfind "/" (dir ++ stem ++ "." ++ ext) + 1
                 = Z.of_nat (String.length dir)).
  { assert (Hrest : has_char "/" (stem ++ "." ++ ext) = false)
      by (rewrite has_char_app, Hs1; simpl; exact He1).
    unfold str_rfind. destruct Hdir as [-> | [d ->]].
    - change ("" ++ stem ++ "." ++ ext) with (stem ++ "." ++ ext).
      rewrite (rfind_absent "/" _ 0 (-1) Hrest). reflexivity.
    - rewrite str_app_assoc.
      change ("/" ++ stem ++ "." ++ ext) with (String "/" (stem ++ "." ++ ext)).
      rewrite (rfind_last "/" d _ 0 (-1) Hrest), str_length_app. simpl. lia. }
  unfold output_filename, splitext.
  rewrite Hdot.
  replace (str_rfind "/" (dir ++ stem ++ "." ++ ext))
    with (Z.of_nat (String.length dir) - 1) by lia.
  replace (Z.of_nat (String.length dir) - 1 + 1) with (Z.of_nat (String.length dir)) by lia.
  rewrite str_length_app, Nat2Z.inj_add.
  replace (Z.of_nat (String.length dir) + Z.of_nat (String.length stem)
           - Z.of_nat (String.length dir)) with (Z.of_nat (String.length stem)) by lia.
  rewrite !Nat2Z.id, str_drop_app, str_take_app, Hs2.
  assert (L : (Z.of_nat (String.length dir) - 1
               <? Z.of_nat (String.length dir) + Z.of_nat (String.length stem)) = true)
    by (apply Z.ltb_lt; lia).
  rewrite L. cbn [andb].
  rewrite <- Nat2Z.inj_add, Nat2Z.id, <- str_length_app.
  rewrite <- (str_app_assoc dir stem), str_take_app, str_drop_app.
  rewrite !str_app_assoc. reflexivity.
Qed.

Lemma output_filename_of_a_plain_name_witness :
  output_filename "talks/day1/key.csv" = "talks/day1/key_out.csv".
Proof.
  apply (output_filename_of_a_plain_name "talks/day1/" "key" "csv");
    try reflexivity.
  right. exists "talks/day1". reflexivity.
Defined.

(** X15. For a name without a dot, [_out] goes at the end, also when a
    directory of the path has a dot. *)
Theorem output_filename_without_extension (dir name : string) :
  dir = "" \/ (exists d, dir = d ++ "/") ->
  has_char "/" name = false -> has_char "." name = false ->
  output_filename (dir ++ name) = dir ++ name ++ "_out".
Proof.
  intros Hdir Hn1 Hn2.
  assert (Hle : str_rfind "." (dir ++ name) <= str_rfind "/" (dir ++ name)).
  { unfold str_rfind. rewrite (rfind_app_absent "." dir name 0 (-1) Hn2).
    destruct Hdir as [-> | [d ->]].
    - change ("" ++ name) with name. change (str_rfind_from "." 0 "" (-1)) with (-1).
      rewrite (rfind_absent "/" name 0 (-1) Hn1). lia.
    - rewrite str_app_assoc. change ("/" ++ name) with (String "/" name).
      rewrite (rfind_last "/" d name 0 (-1) Hn1).
      change (d ++ "/") with (d ++ String "/" "").
      destruct (has_char "." (String "/" "")) eqn:E; [discriminate|].
      rewrite (rfind_app_absent "." d _ 0 (-1) E).
      pose proof (rfind_bound "." d 0 (-1) ltac:(lia)). lia. }
  unfold output_filename, splitext.
  destruct (Z.ltb_spec (str_rfind "/" (dir ++ name)) (str_rfind "." (dir ++ name)));
    [lia|].
  cbn [andb]. rewrite str_app_nil_r, str_app_assoc. reflexivity.
Qed.

Lemma output_filename_without_extension_witness :
  output_filename "rec.2024/take" = "rec.2024/take_out".
Proof.
  apply (output_filename_without_extension "rec.2024/" "take"); try reflexivity.
  right. exists "rec.2024". reflexivity.
Defined.

(** ** The run *)

Lemma map_result_raises {A B : Type} (f : A -> result B) (l : list A) (a : A) (e : exn) :
  In a l -> f a = Raise e -> exists e', map_result f l = Raise e'.
Proof.
  induction l as [|b l IH]; intros Hin Hf; [destruct Hin|].
  cbn [map_result]. destruct Hin as [-> | Hin].
  - rewrite Hf. eexists. reflexivity.
  - destruct (f b); [|eexists; reflexivity]. cbn [bind].
    destruct (IH Hin Hf) as [e' ->]. eexists. reflexivity.
Qed.

(** X16. When a start or an end of any row of the table does not parse,
    the run raises and has no effect: no key file is written and ffmpeg is
    not launched. *)
Theorem main_needs_every_timestamp (translit : ascii -> string) (a : args)
        (ts_raw : list row) (x y lab : string) (e : exn) :
  In (x, y, lab) ts_raw ->
  parse_secs x = Raise e \/ parse_secs y = Raise e ->
  fst (main translit a ts_raw) = []
  /\ exists e', snd (main translit a ts_raw) = Raise e'.
Proof.
  intros Hin Hbad.
  assert (Hf : exists e', parse_data_ffmpeg ts_raw (arg_fuzz a) = Raise e').
  { unfold parse_data_ffmpeg.
    destruct (parse_secs x) as [px|ex] eqn:Ex.
    - destruct Hbad as [Hbad|Hbad]; [discriminate|].
      eapply (map_result_raises _ ts_raw (x, y, lab) e Hin).
      rewrite Ex, Hbad. reflexivity.
    - eapply (map_result_raises _ ts_raw (x, y, lab) ex Hin).
      rewrite Ex. reflexivity. }
  destruct Hf as [e' Hf]. unfold main. rewrite Hf.
  destruct (truthy (arg_audio a)), (truthy (arg_video a)); cbn [bind fst snd];
    split; try reflexivity; eexists; reflexivity.
Qed.

Lemma main_needs_every_timestamp_witness :
  fst (main translit_letters (mk_args (Some "a.mp3") None "k.csv" (PyInt 0))
            [("00:10", "00:12", "a"); ("0:1", "00:20", "b")]) = [].
Proof.
  apply (main_needs_every_timestamp translit_letters _ _ "0:1" "00:20" "b" TypeError).
  - right. left. reflexivity.
  - left. vm_compute. reflexivity.
Defined.

(** Where the effects of a run go. *)
Lemma main_effect_paths (translit : ascii -> string) (a : args)
        (ts_raw : list row) (eff : effect) :
  In eff (fst (main translit a ts_raw)) ->
  match eff with
  | WriteKey path _ _ => path = output_filename (arg_key a) /\ path <> arg_key a
  | Popen cmd =>
      exists media,
        (arg_audio a = Some media \/ arg_video a = Some media)
        /\ nth_error cmd 3 = Some media
        /\ last cmd "" = output_filename media
        /\ last cmd "" <> media
  end.
Proof.
  unfold main.
  assert (C : forall ts media av cmd,
             ts_to_cmd ts media av = Ok cmd ->
             nth_error cmd 3 = Some media
             /\ last cmd "" = output_filename media /\ last cmd "" <> media).
  { intros ts media av cmd. unfold ts_to_cmd.
    destruct (String.eqb av "video"); [|destruct (String.eqb av "audio"); [|discriminate]];
      intros [= <-]; cbn [nth_error last]; repeat split;
      apply output_filename_differs. }
  destruct (truthy (arg_audio a)) eqn:Ta; [|destruct (truthy (arg_video a)) eqn:Tv];
    cbn [bind].
  - destruct (arg_audio a) as [[|c m]|] eqn:Ea; try discriminate.
    destruct (parse_data_ffmpeg ts_raw (arg_fuzz a)); [|intros []]. cbn [bind].
    destruct (parse_data_key translit ts_raw (arg_fuzz a)); [|intros []]. cbn [bind].
    destruct (ts_to_cmd _ _ _) as [cmd|] eqn:Ec; [|intros []]. cbn [bind fst].
    intros [<- | [<- | []]].
    + split; [reflexivity | apply output_filename_differs].
    + exists (String c m). split; [left; reflexivity | apply (C _ _ _ _ Ec)].
  - destruct (arg_video a) as [[|c m]|] eqn:Ea; try discriminate.
    destruct (parse_data_ffmpeg ts_raw (arg_fuzz a)); [|intros []]. cbn [bind].
    destruct (parse_data_key translit ts_raw (arg_fuzz a)); [|intros []]. cbn [bind].
    destruct (ts_to_cmd _ _ _) as [cmd|] eqn:Ec; [|intros []]. cbn [bind fst].
    intros [<- | [<- | []]].
    + split; [reflexivity | apply output_filename_differs].
    + exists (String c m). split; [right; reflexivity | apply (C _ _ _ _ Ec)].
  - intros [].
Qed.

(** X17. Each output of a run differs from the input it is named after:
    the key file goes to [output_filename] of the key table, which differs
    from the key table, and ffmpeg is given the media file as input and,
    as last argument, its [output_filename], which differs from the media
    file.  An output is not compared with the other input: with the audio
    file [k_out.csv] and the key table [k.csv] the key file is written to
    the path of the audio file. *)
Theorem main_renames_each_input (translit : ascii -> string) (a : args)
        (ts_raw : list row) :
  (forall eff,
      In eff (fst (main translit a ts_raw)) ->
      match eff with
      | WriteKey path _ _ => path = output_filename (arg_key a) /\ path <> arg_key a
      | Popen cmd =>
          exists media,
            (arg_audio a = Some media \/ arg_video a = Some media)
            /\ nth_error cmd 3 = Some media
            /\ last cmd "" = output_filename media
            /\ last cmd "" <> media
      end)
  /\ exists rows,
       In (WriteKey "k_out.csv" ["ts1"; "ts2"; "clip_description"] rows)
          (fst (main translit (mk_args (Some "k_out.csv") None "k.csv" (PyInt 0))
                     [("00:10", "00:12", "a")])).
Proof.
  split.
  - intros eff. apply main_effect_paths.
  - eexists. vm_compute. left. reflexivity.
Qed.

Lemma main_renames_each_input_witness : "k_out.csv" <> "k.csv".
Proof.
  refine (proj2 (proj1 (main_renames_each_input translit_letters
                          (mk_args (Some "a.mp3") None "k.csv" (PyInt 0))
                          [("00:10", "00:12", "a")])
                   (WriteKey "k_out.csv" ["ts1"; "ts2"; "clip_description"]
                             [(VStr "00:00:00,000", VStr "00:00:02,000", "a")]) _)).
  vm_compute. left. reflexivity.
Defined.

(** * Properties in binary64 *)

Lemma b64_insert_by_perm {A : Type} (key : A -> Binary64.pynum) (a : A) (l : list A) :
  Permutation (Binary64.insert_by key a l) (a :: l).
Proof.
  induction l as [|b l IH]; simpl.
  - apply Permutation_refl.
  - destruct (Binary64.py_lt (key b) (key a)).
    + eapply perm_trans; [apply perm_skip, IH | apply perm_swap].
    + apply Permutation_refl.
Qed.

Lemma b64_sorted_by_perm {A : Type} (key : A -> Binary64.pynum) (l : list A) :
  Permutation (Binary64.sorted_by key l) l.
Proof.
  induction l as [|a l IH]; simpl.
  - apply perm_nil.
  - eapply perm_trans; [apply b64_insert_by_perm | apply perm_skip, IH].
Qed.

Lemma b64_prev_ts2_snoc (ks : list Binary64.seg) (k : Binary64.seg) :
  Binary64.prev_ts2 (List.length (ks ++ [k])%list) (ks ++ [k])%list
  = Ok (Binary64.seg_end k).
Proof.
  rewrite length_app. simpl List.length. rewrite Nat.add_1_r. simpl.
  rewrite nth_error_app2 by lia. rewrite Nat.sub_diag. reflexivity.
Qed.

Lemma b64_close_gaps_walk (l : list Binary64.shifted) :
  forall (ks : list Binary64.seg) (c : Binary64.pynum),
    Binary64.prev_ts2 (List.length ks) ks = Ok c ->
    Binary64.close_gaps (List.length ks) l ks = Ok (ks ++ b64_walk c l)%list.
Proof.
  induction l as [|[[[ts1 ts2] dur] lab] l IH]; intros ks c Hc; simpl.
  - rewrite app_nil_r. reflexivity.
  - rewrite Hc. simpl.
    replace (S (List.length ks))
      with (List.length (ks ++ [(c, Binary64.py_add c dur, lab)])%list)
      by (rewrite length_app; simpl; lia).
    rewrite (IH _ (Binary64.py_add c dur)) by apply b64_prev_ts2_snoc.
    rewrite <- app_assoc. reflexivity.
Qed.

(** The timeline of a non-empty list: the walk from 0 over the segments in
    some order. *)
Lemma b64_key_timeline_cons (s : Binary64.seg) (l : list Binary64.seg) :
  exists m order,
    Permutation order (s :: l)
    /\ Binary64.key_timeline (s :: l)
       = Ok (b64_walk (Binary64.PyInt 0) (map (Binary64.shift_by m) order)).
Proof.
  unfold Binary64.key_timeline. cbn [Binary64.py_min bind].
  set (m := Binary64.seg_start (Binary64.min_from Binary64.seg_start s l)).
  pose proof (b64_sorted_by_perm Binary64.shifted_start
                (map (Binary64.shift_by m) (s :: l))) as P.
  apply Permutation_map_inv in P. destruct P as (order & Heq & Hperm).
  exists m, order. split; [apply Permutation_sym, Hperm|].
  rewrite Heq. apply (b64_close_gaps_walk _ [] (Binary64.PyInt 0)). reflexivity.
Qed.

Lemma b64_walk_ends (m : Binary64.pynum) (l : list Binary64.seg) :
  forall c, Forall2 b64_end_is_start_plus_duration
                    (b64_walk c (map (Binary64.shift_by m) l)) l.
Proof.
  induction l as [|[[x y] lab] l IH]; intros c; simpl; constructor.
  - split; reflexivity.
  - apply IH.
Qed.


(** C7, as stated, fails in the arithmetic of the code: for the rows 0.1 to
    1.0 and 0.3 to 2.2 with no fuzz the second output segment runs from 0.9
    to 0.9 + 1.9000000000000001, which is 2.8000000000000003, and the
    difference of the two is not the duration 1.9000000000000001. *)
Lemma rounded_sum_loses_the_duration :
  Binary64.tsconv_keys tenth_rows (Binary64.PyInt 0) = Ok tenth_segs
  /\ exists o1 o2,
       Binary64.key_timeline tenth_segs = Ok [o1; o2]
       /\ Binary64.seg_label o2 = "b"
       /\ Binary64.py_eq
            (Binary64.py_sub (Binary64.seg_end o2) (Binary64.seg_start o2))
            (Binary64.py_sub (Binary64.PyFloat (Binary64.decimal 22 10))
                             (Binary64.PyFloat (Binary64.decimal 3 10)))
          = false.
Proof.
  split; [vm_compute; reflexivity|].
  eexists _, _. split; [vm_compute; reflexivity|].
  split; vm_compute; reflexivity.
Qed.

(** C7, amended. For every non-empty list of fuzzed segments, in every
    input ordering, the output segments match the segments in some order,
    one by one: each output segment has the label of its segment and its
    [out_end] is the float sum of its [out_start] and that segment's fuzzed
    [end - start], computed before re-basing and sorting. *)
Theorem out_end_is_out_start_plus_duration (s : Binary64.seg) (l : list Binary64.seg) :
  exists outs order,
    Binary64.key_timeline (s :: l) = Ok outs
    /\ Permutation order (s :: l)
    /\ Forall2 b64_end_is_start_plus_duration outs order.
Proof.
  destruct (b64_key_timeline_cons s l) as (m & order & Hperm & Heq).
  eexists _, order. split; [exact Heq|]. split; [exact Hperm|].
  apply b64_walk_ends.
Qed.


(** ** Subtitle times in binary64 *)


(** The rendering of a [timedelta] of [us] microseconds that formats well. *)
Lemma b64_conv_time_format (x : Binary64.pynum) (us : Z) :
  Binary64.timedelta_us x = Ok us ->
  Binary64.py_eq x (Binary64.PyInt 0) = false ->
  0 <= us < us_per_day ->
  us mod 1000000 <> 0 \/ us < 36000000000 ->
  Binary64.conv_time (Binary64.VNum x) = Ok (Binary64.VStr (subtitle_of_us us)).
Proof.
  intros Hx Hne Hus Hfmt. unfold Binary64.conv_time. rewrite Hne.
  unfold Binary64.timedelta_of_seconds. rewrite Hx. cbn [bind].
  unfold us_per_day in *.
  replace (us / 86400000000) with 0 by zdiv.
  replace (us mod 86400000000) with us by zdiv.
  cbn [Z.abs Z.ltb Z.compare bind].
  unfold timedelta_str. cbn [td_days td_seconds td_microseconds Z.eqb].
  unfold subtitle_of_us.
  set (sec := us / 1000000) in *.
  set (u := us mod 1000000) in *.
  assert (Hsec : 0 <= sec < 86400) by (unfold sec; zdiv).
  assert (Hu : 0 <= u < 1000000) by (unfold u; zdiv).
  replace (sec / 3600) with (sec / 60 / 60) by zdiv.
  set (hh := sec / 60 / 60) in *.
  set (mm := sec / 60 mod 60) in *.
  set (ss := sec mod 60) in *.
  assert (Hhh : 0 <= hh < 24) by (unfold hh; zdiv).
  assert (Hmm : 0 <= mm < 60) by (unfold mm; zdiv).
  assert (Hss : 0 <= ss < 60) by (unfold ss; zdiv).
  rewrite (fmt_0d_digits 1 mm), (fmt_0d_digits 1 ss)
    by (change (10 ^ Z.of_nat 2) with 100; lia).
  rewrite (fmt_d_hours hh Hhh).
  rewrite (fmt_0d_digits 5 u) by (change (10 ^ Z.of_nat 6) with 1000000; lia).
  assert (Hcase : u <> 0 \/ hh < 10) by (unfold u, hh, sec; zdiv).
  clearbody hh mm ss u. clear Hfmt Hus Hsec Hne Hx sec.
  assert (E3 : u / 10 / 10 / 10 = u / 1000) by zdiv.
  assert (E4 : u / 10 / 10 / 10 / 10 = u / 1000 / 10) by zdiv.
  assert (E5 : u / 10 / 10 / 10 / 10 / 10 = u / 1000 / 10 / 10) by zdiv.
  destruct (Z.eqb_spec u 0) as [-> | Hu0]; destruct (Z.ltb_spec hh 10) as [Hh | Hh];
    try lia;
    cbn [digits append str_replace]; rewrite ?digit_char_not_dot;
    cbn - [digit_char Z.div]; rewrite ?E3, ?E4, ?E5.
  - replace (hh / 10) with 0 by zdiv. reflexivity.
  - replace (hh / 10) with 0 by zdiv. reflexivity.
  - reflexivity.
Qed.


(** C4, as stated, fails at 24 hours in the arithmetic of the code: the
    row 00:00:00 to 23:59:59 with a fuzz of one second gives a segment that
    ends at 86400.0, and the key row renders that value with a day count,
    cut by the slice, instead of [24:00:00,000]. *)
Lemma day_long_value_is_not_a_subtitle_time :
  Binary64.parse_data_key translit_letters day_rows
    (Binary64.PyFloat (Binary64.decimal 1 1))
  = Ok [(Binary64.VStr "00:00:00,000", Binary64.VStr "01 day, 0:00", "x")]
  /\ Binary64.conv_time (Binary64.VNum (Binary64.PyFloat (Binary64.decimal 86400 1)))
     = Ok (Binary64.VStr "01 day, 0:00")
  /\ is_subtitle "01 day, 0:00" = false
  /\ is_subtitle "24:00:00,000" = true.
Proof. repeat split; vm_compute; reflexivity. Qed.

(** C4, amended. Let [us] be the number of microseconds of the
    [timedelta] of a non-zero value.  When [us] is from 0 up to 24 hours
    and is below 10 hours or not a whole number of seconds, the value is
    rendered as [HH:MM:SS,mmm]: two digits each for hours, minutes and
    seconds, a comma, and three digits of milliseconds, the microseconds
    being cut; 12 characters.  The value 0, int or float, gives the literal
    [00:00:00,000]. *)
Theorem subtitle_format_below_a_day (x : Binary64.pynum) (us : Z) :
  Binary64.timedelta_us x = Ok us ->
  Binary64.py_eq x (Binary64.PyInt 0) = false ->
  0 <= us < us_per_day ->
  us mod 1000000 <> 0 \/ us < 36000000000 ->
  Binary64.conv_time (Binary64.VNum x) = Ok (Binary64.VStr (subtitle_of_us us))
  /\ String.length (subtitle_of_us us) = 12%nat
  /\ is_subtitle (subtitle_of_us us) = true
  /\ Binary64.conv_time (Binary64.VNum (Binary64.PyInt 0))
     = Ok (Binary64.VStr "00:00:00,000")
  /\ Binary64.conv_time (Binary64.VNum (Binary64.PyFloat (Binary64.float_of_Z 0)))
     = Ok (Binary64.VStr "00:00:00,000").
Proof.
  intros Hx Hne Hus Hfmt.
  split; [apply b64_conv_time_format; assumption|].
  split; [apply subtitle_of_us_shape|].
  split; [apply subtitle_of_us_shape|].
  split; reflexivity.
Qed.

Lemma subtitle_format_below_a_day_witness :
  Binary64.conv_time (Binary64.VNum (Binary64.PyFloat (Binary64.decimal 366125 100)))
  = Ok (Binary64.VStr "01:01:01,250").
Proof.
  apply (subtitle_format_below_a_day
           (Binary64.PyFloat (Binary64.decimal 366125 100)) 3661250000).
  - vm_compute. reflexivity.
  - vm_compute. reflexivity.
  - vm_compute. split; [discriminate | reflexivity].
  - left. vm_compute. discriminate.
Defined.



